(** * droneConfig.cc: the mmWave/EPC scenario script, embedded in Rocq

    The program is one function, [main], a straight line of calls into the
    ns-3 simulation framework.  The embedding keeps that shape: [main] is a
    computation in a small state/exit monad, written call by call in the
    order of the source, over

    - the local variables bound to command-line options ([Vars]),
    - the [CommandLine] object that holds references to them,
    - the part of the framework's world the calls act on ([World]), and
    - the log of framework calls issued so far ([Call]).

    ns-3 itself is an external dependency.  What the script relies on is
    modelled call by call; behaviour that belongs to the framework alone
    (text-to-value conversion, attribute lookup, the contents of the EPC
    core, what a configuration file holds) is taken from the interface
    [Ns3] and every theorem holds for all of its instances. *)

From Stdlib Require Import ZArith String Ascii List Bool Lia Floats.
From stdpp Require Import base option list gmap strings.

Set Warnings "-inexact-float".

Local Open Scope Z_scope.
Local Open Scope string_scope.

(** ** Values passed to the framework *)

(** [MicroSeconds(x)] and [Seconds(x)] as the source writes them. *)
Inductive Time : Type :=
| MicroSeconds (v : float)
| Seconds (v : float).

(** [DataRate("100Gb/s")]: a data rate given by its textual form. *)
Inductive DataRate : Type :=
| DataRate_of (rate : string).

Inductive AttributeValue : Type :=
| BooleanValue (b : bool)
| TimeValue (t : Time)
| DataRateValue (r : DataRate)
| UintegerValue (n : Z)
| StringValue (s : string).

(** The attribute registry of [Config::SetDefault], keyed by full name. *)
Abbreviation Defaults := (gmap string AttributeValue).

(** ** Fixed-width integers *)

Definition wrap16 (z : Z) : Z := z mod 65536.
Definition to_uint32 (z : Z) : Z := z mod 4294967296.

(** ** The locals of [main] bound to options (lines 18-25) *)

Record Vars : Type := mkVars {
  numEnb : Z;                    (* uint16_t *)
  numUe : Z;                     (* uint16_t *)
  simTime : float;               (* double *)
  interPacketInterval : float;   (* double *)
  minDistance : float;           (* double *)
  maxDistance : float;           (* double *)
  harqEnabled : bool;
  rlcAmEnabled : bool
}.

Definition initial_vars : Vars :=
  {| numEnb := 1;
     numUe := 1;
     simTime := 2.0%float;
     interPacketInterval := 100%float;
     minDistance := 10.0%float;
     maxDistance := 150.0%float;
     harqEnabled := true;
     rlcAmEnabled := false |}.

(** A reference to one of the locals, as captured by [AddValue(..., T& v)]. *)
Inductive VarRef : Type :=
| ref_numEnb
| ref_numUe
| ref_simTime
| ref_interPacketInterval
| ref_harqEnabled
| ref_rlcAmEnabled.

Inductive ValueType : Type := T_uint16 | T_double | T_bool.

Definition ref_type (r : VarRef) : ValueType :=
  match r with
  | ref_numEnb | ref_numUe => T_uint16
  | ref_simTime | ref_interPacketInterval => T_double
  | ref_harqEnabled | ref_rlcAmEnabled => T_bool
  end.

Definition set_numEnb (n : Z) (v : Vars) : Vars :=
  mkVars n (numUe v) (simTime v) (interPacketInterval v)
         (minDistance v) (maxDistance v) (harqEnabled v) (rlcAmEnabled v).
Definition set_numUe (n : Z) (v : Vars) : Vars :=
  mkVars (numEnb v) n (simTime v) (interPacketInterval v)
         (minDistance v) (maxDistance v) (harqEnabled v) (rlcAmEnabled v).
Definition set_simTime (x : float) (v : Vars) : Vars :=
  mkVars (numEnb v) (numUe v) x (interPacketInterval v)
         (minDistance v) (maxDistance v) (harqEnabled v) (rlcAmEnabled v).
Definition set_interPacketInterval (x : float) (v : Vars) : Vars :=
  mkVars (numEnb v) (numUe v) (simTime v) x
         (minDistance v) (maxDistance v) (harqEnabled v) (rlcAmEnabled v).
Definition set_harqEnabled (b : bool) (v : Vars) : Vars :=
  mkVars (numEnb v) (numUe v) (simTime v) (interPacketInterval v)
         (minDistance v) (maxDistance v) b (rlcAmEnabled v).
Definition set_rlcAmEnabled (b : bool) (v : Vars) : Vars :=
  mkVars (numEnb v) (numUe v) (simTime v) (interPacketInterval v)
         (minDistance v) (maxDistance v) (harqEnabled v) b.

(** ** Objects of the framework the script holds *)

(** One registered option: name, help text, and the variable written. *)
Record Item : Type := mkItem {
  m_name : string;
  m_help : string;
  m_valuePtr : VarRef
}.

Record CommandLine : Type := mkCommandLine {
  m_options : list Item
}.

Record MmWavePointToPointEpcHelper : Type := mkEpcHelper {
  m_pgw : nat
}.

Record MmWaveHelper : Type := mkMmWaveHelper {
  m_schedulerType : string;
  m_epcHelper : option MmWavePointToPointEpcHelper;
  m_harqEnabled : bool;
  m_rlcAmEnabled : bool
}.

(** ** The framework interface

    Behaviour the script does not determine.  [parse_bool] receives the
    current value of the variable, since the framework may derive the new
    value from it when the option carries no text. *)
Class Ns3 : Type := {
  parse_uint16 : string -> option Z;
  parse_double : string -> option float;
  parse_bool : string -> bool -> option bool;
  (** options the framework answers itself (help and listings), after
      which it ends the process with status 0 *)
  builtin_option : string -> bool;
  (** an argument that names no registered option is tried as a global
      value or attribute default; [None] when the framework rejects it *)
  SetAttributeFailSafe : string -> string -> Defaults -> option Defaults;
  (** [ConfigStore::ConfigureDefaults]: defaults after an optional load *)
  ConfigStore_load : Defaults -> Defaults;
  (** a fresh [MmWaveHelper], its attributes taken from the defaults *)
  MmWaveHelper_new : Defaults -> MmWaveHelper;
  (** nodes the EPC helper creates for the core, and which one is the PGW *)
  epc_node_count : nat;
  epc_pgw_offset : nat
}.

(** ** The world the calls act on *)

(** A point-to-point link installed between two nodes, with the attributes
    its devices and its channel were created with. *)
Record P2PLink : Type := mkLink {
  link_a : nat;
  link_b : nat;
  link_device_attrs : Defaults;
  link_channel_attrs : Defaults
}.

(** A net device: the node it sits on and the link it belongs to. *)
Record NetDevice : Type := mkDevice {
  dev_node : nat;
  dev_link : nat
}.

(** An IPv4 interface: node, device, address and mask (32-bit values). *)
Record Ipv4Interface : Type := mkInterface {
  if_node : nat;
  if_device : NetDevice;
  if_address : Z;
  if_mask : Z
}.

Record Route : Type := mkRoute {
  rt_network : Z;
  rt_mask : Z;
  rt_interface : Z
}.

Record World : Type := mkWorld {
  defaults : Defaults;                  (* Config::SetDefault registry *)
  node_count : nat;                     (* nodes are numbered as created *)
  internet_nodes : list nat;            (* nodes with an Internet stack *)
  links : list P2PLink;
  interfaces : list Ipv4Interface;
  static_routes : gmap nat (list Route) (* per node, in insertion order *)
}.

Definition empty_world : World :=
  mkWorld ∅ 0 [] [] [] ∅.

(** ** The log of framework calls *)

(** The object locals of [main], used to say which object a call is on. *)
Inductive Local : Type :=
| L_cmd | L_mmwaveHelper | L_epcHelper | L_inputConfig
| L_remoteHostContainer | L_internet | L_p2ph | L_ipv4h
| L_ipv4RoutingHelper | L_ueNodes | L_enbNodes.

Inductive Call : Type :=
| Construct (obj : Local)
| CommandLine_AddValue (name help : string) (r : VarRef)
| CommandLine_Parse (argv : list string)
| Config_SetDefault (name : string) (v : AttributeValue)
| CreateObject (obj : Local)
| MmWaveHelper_SetSchedulerType (type : string)
| MmWaveHelper_SetEpcHelper
| MmWaveHelper_SetHarqEnabled (b : bool)
| ConfigStore_ConfigureDefaults
| EpcHelper_GetPgwNode
| NodeContainer_Create (obj : Local) (n : Z)
| NodeContainer_Get (obj : Local) (i : Z)
| InternetStackHelper_Install (nodes : list nat)
| PointToPointHelper_SetDeviceAttribute (name : string) (v : AttributeValue)
| PointToPointHelper_SetChannelAttribute (name : string) (v : AttributeValue)
| PointToPointHelper_Install (a b : nat)
| Ipv4AddressHelper_SetBase (network mask : string)
| Ipv4AddressHelper_Assign (devices : list NetDevice)
| Ipv4InterfaceContainer_GetAddress (i : Z)
| Node_GetObject_Ipv4 (node : nat)
| Ipv4StaticRoutingHelper_GetStaticRouting (node : nat)
| Ipv4StaticRouting_AddNetworkRouteTo (node : nat) (network mask : string)
                                      (interface : Z)
| Simulator_Stop (t : Time)
| Simulator_Run
| Simulator_Destroy.

(** ** State and outcomes *)

Record State : Type := mkState {
  vars : Vars;
  cmd : CommandLine;
  world : World;
  log : list Call
}.

(** A computation returns, or the framework ends the process ([Exit]), or
    an access is out of range or through a null pointer ([Fault]). *)
Inductive Outcome (A : Type) : Type :=
| Ret (a : A) (s : State)
| Exit (code : Z) (w : World) (l : list Call)
| Fault (w : World) (l : list Call).
Arguments Ret {A} a s.
Arguments Exit {A} code w l.
Arguments Fault {A} w l.

Definition M (A : Type) : Type := State -> Outcome A.

#[global] Instance M_ret : MRet M := fun A a s => Ret a s.
#[global] Instance M_bind : MBind M := fun A B f m s =>
  match m s with
  | Ret a s' => f a s'
  | Exit c w l => Exit c w l
  | Fault w l => Fault w l
  end.

Definition call (c : Call) : M unit := fun s =>
  Ret tt (mkState (vars s) (cmd s) (world s) (log s ++ [c])).
Definition get_vars : M Vars := fun s => Ret (vars s) s.
Definition put_vars (v : Vars) : M unit := fun s =>
  Ret tt (mkState v (cmd s) (world s) (log s)).
Definition get_cmd : M CommandLine := fun s => Ret (cmd s) s.
Definition put_cmd (c : CommandLine) : M unit := fun s =>
  Ret tt (mkState (vars s) c (world s) (log s)).
Definition get_world : M World := fun s => Ret (world s) s.
Definition put_world (w : World) : M unit := fun s =>
  Ret tt (mkState (vars s) (cmd s) w (log s)).
Definition exit (code : Z) : M unit := fun s => Exit code (world s) (log s).
Definition fault {A : Type} : M A := fun s => Fault (world s) (log s).

Definition set_defaults (d : Defaults) (w : World) : World :=
  mkWorld d (node_count w) (internet_nodes w) (links w) (interfaces w)
          (static_routes w).
Definition set_node_count (n : nat) (w : World) : World :=
  mkWorld (defaults w) n (internet_nodes w) (links w) (interfaces w)
          (static_routes w).
Definition set_internet_nodes (l : list nat) (w : World) : World :=
  mkWorld (defaults w) (node_count w) l (links w) (interfaces w)
          (static_routes w).
Definition set_links (l : list P2PLink) (w : World) : World :=
  mkWorld (defaults w) (node_count w) (internet_nodes w) l (interfaces w)
          (static_routes w).
Definition set_interfaces (l : list Ipv4Interface) (w : World) : World :=
  mkWorld (defaults w) (node_count w) (internet_nodes w) (links w) l
          (static_routes w).
Definition set_static_routes (r : gmap nat (list Route)) (w : World) : World :=
  mkWorld (defaults w) (node_count w) (internet_nodes w) (links w)
          (interfaces w) r.

(** ** Text handling inside the framework's option parser *)

(** [HandleOption]: an argument is an option when it starts with one or two
    dashes; what follows is the option text. *)
Definition strip_dashes (param : string) : option string :=
  match param with
  | String "-" (String "-" rest) => Some rest
  | String "-" rest => Some rest
  | _ => None
  end.

(** The option text is split at the first '=' into name and value; without
    '=' the value is empty. *)
Fixpoint split_eq (arg : string) : string * string :=
  match arg with
  | EmptyString => (EmptyString, EmptyString)
  | String c rest =>
      if Ascii.eqb c "="
      then (EmptyString, rest)
      else let (name, value) := split_eq rest in (String c name, value)
  end.

Definition HandleOption (param : string) : option (string * string) :=
  match strip_dashes param with
  | Some arg => Some (split_eq arg)
  | None => None
  end.

(** Dotted-decimal text to a 32-bit value, byte by byte. *)
Definition digit_of (c : ascii) : Z :=
  Z.of_N (N_of_ascii c) - 48.

Fixpoint ascii_to_host (s : string) (host byte : Z) : Z :=
  match s with
  | EmptyString => to_uint32 (host * 256 + byte)
  | String c rest =>
      if Ascii.eqb c "."
      then ascii_to_host rest (to_uint32 (host * 256 + byte)) 0
      else ascii_to_host rest host ((byte * 10 + digit_of c) mod 256)
  end.

Definition Ipv4Address (s : string) : Z := ascii_to_host s 0 0.
Definition Ipv4Mask (s : string) : Z := ascii_to_host s 0 0.

(** ** Helper objects local to [main] *)

Record PointToPointHelper : Type := mkP2P {
  m_deviceFactory : Defaults;
  m_channelFactory : Defaults
}.

Record Ipv4AddressHelper : Type := mkAddressHelper {
  m_network : Z;
  m_mask : Z;
  m_address : Z
}.

(** [Ipv4AddressHelper::Assign]: one interface per device, in container
    order, each with the next address of the helper. *)
Fixpoint assign_devices (h : Ipv4AddressHelper) (devices : list NetDevice)
  : Ipv4AddressHelper * list Ipv4Interface :=
  match devices with
  | [] => (h, [])
  | d :: rest =>
      let addr := Z.lor (m_network h) (m_address h) in
      let h' := mkAddressHelper (m_network h) (m_mask h) (m_address h + 1) in
      let (h'', ifs) := assign_devices h' rest in
      (h'', mkInterface (dev_node d) d addr (m_mask h) :: ifs)
  end.

(** The object locals of [main] when it returns. *)
Record Locals : Type := mkLocals {
  mmwaveHelper : MmWaveHelper;
  epcHelper : MmWavePointToPointEpcHelper;
  pgw : nat;
  remoteHostContainer : list nat;
  remoteHost : nat;
  p2ph : PointToPointHelper;
  internetDevices : list NetDevice;
  ipv4h : Ipv4AddressHelper;
  internetIpIfaces : list Ipv4Interface;
  remoteHostAddr : Z;
  remoteHostStaticRouting : nat;
  ueNodes : list nat;
  enbNodes : list nat
}.

(** ** The framework calls made by the script *)

Section Script.
Context {fw : Ns3}.

(** *** CommandLine *)

Definition CommandLine_new : M unit :=
  call (Construct L_cmd) ;;
  put_cmd (mkCommandLine []).

Definition AddValue (name help : string) (r : VarRef) : M unit :=
  call (CommandLine_AddValue name help r) ;;
  c ← get_cmd ;
  put_cmd (mkCommandLine (m_options c ++ [mkItem name help r])).

(** The registered item converts the text and writes through its
    reference; [None] when the text is not a value of the item's type. *)
Definition Item_Parse (i : Item) (value : string) (v : Vars) : option Vars :=
  match m_valuePtr i with
  | ref_numEnb =>
      match parse_uint16 value with
      | Some n => Some (set_numEnb (wrap16 n) v)
      | None => None
      end
  | ref_numUe =>
      match parse_uint16 value with
      | Some n => Some (set_numUe (wrap16 n) v)
      | None => None
      end
  | ref_simTime =>
      match parse_double value with
      | Some x => Some (set_simTime x v)
      | None => None
      end
  | ref_interPacketInterval =>
      match parse_double value with
      | Some x => Some (set_interPacketInterval x v)
      | None => None
      end
  | ref_harqEnabled =>
      match parse_bool value (harqEnabled v) with
      | Some b => Some (set_harqEnabled b v)
      | None => None
      end
  | ref_rlcAmEnabled =>
      match parse_bool value (rlcAmEnabled v) with
      | Some b => Some (set_rlcAmEnabled b v)
      | None => None
      end
  end.

Inductive ParseResult : Type :=
| ParseOk (v : Vars) (d : Defaults)
| ParseExit (code : Z) (d : Defaults).

Definition find_item (opts : list Item) (name : string) : option Item :=
  List.find (fun i => String.eqb (m_name i) name) opts.

(** [HandleArgument]: framework options first, then the registered items
    by name (first match), then global values and attribute defaults. *)
Definition HandleArgument (opts : list Item) (name value : string)
    (v : Vars) (d : Defaults) : ParseResult :=
  if builtin_option name then ParseExit 0 d
  else match find_item opts name with
       | Some i =>
           match Item_Parse i value v with
           | Some v' => ParseOk v' d
           | None => ParseExit 1 d
           end
       | None =>
           match SetAttributeFailSafe name value d with
           | Some d' => ParseOk v d'
           | None => ParseExit 1 d
           end
       end.

(** The arguments are handled from left to right; one that is not an
    option is kept by the parser and bound to no variable (the script
    registers no positional argument). *)
Fixpoint parse_params (opts : list Item) (args : list string)
    (v : Vars) (d : Defaults) : ParseResult :=
  match args with
  | [] => ParseOk v d
  | param :: rest =>
      match HandleOption param with
      | Some (name, value) =>
          match HandleArgument opts name value v d with
          | ParseOk v' d' => parse_params opts rest v' d'
          | ParseExit code d' => ParseExit code d'
          end
      | None => parse_params opts rest v d
      end
  end.

(** [argv[0]] is the program name and is skipped. *)
Definition parse_argv (opts : list Item) (argv : list string)
    (v : Vars) (d : Defaults) : ParseResult :=
  match argv with
  | [] => ParseOk v d
  | _ :: args => parse_params opts args v d
  end.

Definition Parse (argv : list string) : M unit :=
  call (CommandLine_Parse argv) ;;
  c ← get_cmd ;
  v ← get_vars ;
  w ← get_world ;
  match parse_argv (m_options c) argv v (defaults w) with
  | ParseOk v' d' =>
      put_vars v' ;;
      put_world (set_defaults d' w)
  | ParseExit code d' =>
      put_world (set_defaults d' w) ;;
      exit code
  end.

(** *** Config and the two helpers *)

Definition SetDefault (name : string) (value : AttributeValue) : M unit :=
  call (Config_SetDefault name value) ;;
  w ← get_world ;
  put_world (set_defaults (<[name := value]> (defaults w)) w).

Definition CreateObject_MmWaveHelper : M MmWaveHelper :=
  call (CreateObject L_mmwaveHelper) ;;
  w ← get_world ;
  mret (MmWaveHelper_new (defaults w)).

Definition CreateObject_MmWavePointToPointEpcHelper
  : M MmWavePointToPointEpcHelper :=
  call (CreateObject L_epcHelper) ;;
  w ← get_world ;
  put_world (set_node_count (node_count w + epc_node_count)%nat w) ;;
  mret (mkEpcHelper (node_count w + epc_pgw_offset)%nat).

Definition SetSchedulerType (h : MmWaveHelper) (type : string)
  : M MmWaveHelper :=
  call (MmWaveHelper_SetSchedulerType type) ;;
  mret (mkMmWaveHelper type (m_epcHelper h) (m_harqEnabled h)
                       (m_rlcAmEnabled h)).

Definition SetEpcHelper (h : MmWaveHelper) (e : MmWavePointToPointEpcHelper)
  : M MmWaveHelper :=
  call MmWaveHelper_SetEpcHelper ;;
  mret (mkMmWaveHelper (m_schedulerType h) (Some e) (m_harqEnabled h)
                       (m_rlcAmEnabled h)).

Definition SetHarqEnabled (h : MmWaveHelper) (b : bool) : M MmWaveHelper :=
  call (MmWaveHelper_SetHarqEnabled b) ;;
  mret (mkMmWaveHelper (m_schedulerType h) (m_epcHelper h) b
                       (m_rlcAmEnabled h)).

Definition ConfigStore_new : M unit :=
  call (Construct L_inputConfig).

Definition ConfigureDefaults : M unit :=
  call ConfigStore_ConfigureDefaults ;;
  w ← get_world ;
  put_world (set_defaults (ConfigStore_load (defaults w)) w).

Definition GetPgwNode (e : MmWavePointToPointEpcHelper) : M nat :=
  call EpcHelper_GetPgwNode ;;
  mret (m_pgw e).

(** *** Node containers *)

Definition NodeContainer_new (obj : Local) : M (list nat) :=
  call (Construct obj) ;;
  mret [].

(** [Create(n)] makes [n] new nodes and appends them to the container. *)
Definition Create (obj : Local) (c : list nat) (n : Z) : M (list nat) :=
  call (NodeContainer_Create obj n) ;;
  w ← get_world ;
  put_world (set_node_count (node_count w + Z.to_nat n)%nat w) ;;
  mret (c ++ seq (node_count w) (Z.to_nat n))%list.

Definition Get (obj : Local) (c : list nat) (i : Z) : M nat :=
  call (NodeContainer_Get obj i) ;;
  match c !! Z.to_nat i with
  | Some node => mret node
  | None => fault
  end.

(** *** Internet stack, point-to-point link, addresses, routing *)

Definition InternetStackHelper_new : M unit :=
  call (Construct L_internet).

Definition InternetStack_Install (c : list nat) : M unit :=
  call (InternetStackHelper_Install c) ;;
  w ← get_world ;
  put_world (set_internet_nodes (internet_nodes w ++ c)%list w).

Definition PointToPointHelper_new : M PointToPointHelper :=
  call (Construct L_p2ph) ;;
  mret (mkP2P ∅ ∅).

Definition SetDeviceAttribute (p : PointToPointHelper) (name : string)
    (value : AttributeValue) : M PointToPointHelper :=
  call (PointToPointHelper_SetDeviceAttribute name value) ;;
  mret (mkP2P (<[name := value]> (m_deviceFactory p)) (m_channelFactory p)).

Definition SetChannelAttribute (p : PointToPointHelper) (name : string)
    (value : AttributeValue) : M PointToPointHelper :=
  call (PointToPointHelper_SetChannelAttribute name value) ;;
  mret (mkP2P (m_deviceFactory p) (<[name := value]> (m_channelFactory p))).

(** [Install(a, b)]: one device on each node, joined by a new channel; the
    returned container holds the device of [a], then the device of [b]. *)
Definition P2P_Install (p : PointToPointHelper) (a b : nat)
  : M (list NetDevice) :=
  call (PointToPointHelper_Install a b) ;;
  w ← get_world ;
  let l := length (links w) in
  put_world (set_links
               (links w ++ [mkLink a b (m_deviceFactory p)
                                   (m_channelFactory p)])%list w) ;;
  mret [mkDevice a l; mkDevice b l].

Definition Ipv4AddressHelper_new : M Ipv4AddressHelper :=
  call (Construct L_ipv4h) ;;
  mret (mkAddressHelper 4294967295 0 4294967295).

(** [SetBase(network, mask)]; the first host address is the default
    third argument, "0.0.0.1". *)
Definition SetBase (h : Ipv4AddressHelper) (network mask : string)
  : M Ipv4AddressHelper :=
  call (Ipv4AddressHelper_SetBase network mask) ;;
  mret (mkAddressHelper (Ipv4Address network) (Ipv4Mask mask)
                        (Ipv4Address "0.0.0.1")).

Definition Assign (h : Ipv4AddressHelper) (devices : list NetDevice)
  : M (Ipv4AddressHelper * list Ipv4Interface) :=
  call (Ipv4AddressHelper_Assign devices) ;;
  w ← get_world ;
  let r := assign_devices h devices in
  put_world (set_interfaces (interfaces w ++ r.2)%list w) ;;
  mret r.

Definition GetAddress (c : list Ipv4Interface) (i : Z) : M Z :=
  call (Ipv4InterfaceContainer_GetAddress i) ;;
  match c !! Z.to_nat i with
  | Some itf => mret (if_address itf)
  | None => fault
  end.

Definition Ipv4StaticRoutingHelper_new : M unit :=
  call (Construct L_ipv4RoutingHelper).

(** [node->GetObject<Ipv4>()]: null unless the node was given a stack. *)
Definition GetObject_Ipv4 (node : nat) : M (option nat) :=
  call (Node_GetObject_Ipv4 node) ;;
  w ← get_world ;
  mret (if existsb (Nat.eqb node) (internet_nodes w)
        then Some node else None).

Definition GetStaticRouting (ipv4 : option nat) : M nat :=
  match ipv4 with
  | Some node =>
      call (Ipv4StaticRoutingHelper_GetStaticRouting node) ;;
      mret node
  | None => fault
  end.

Definition AddNetworkRouteTo (routing : nat) (network mask : string)
    (interface : Z) : M unit :=
  call (Ipv4StaticRouting_AddNetworkRouteTo routing network mask interface) ;;
  w ← get_world ;
  let r := mkRoute (Ipv4Address network) (Ipv4Mask mask) interface in
  let old := default [] (static_routes w !! routing) in
  put_world (set_static_routes
               (<[routing := (old ++ [r])%list]> (static_routes w)) w).

(** ** [main] *)

(** Reading one of the variables of lines 18-25. *)
Definition read {A : Type} (f : Vars -> A) : M A := fun s => Ret (f (vars s)) s.

(** [main_with v0 argv] is the body of [main] with the variables of lines
    18-25 initialised to [v0]; [main] fixes them to the values of the
    source.  Each line below is one statement of the source, in order. *)
Definition main_with (v0 : Vars) (argv : list string) : M Locals :=
  put_vars v0 ;;
  (* Command line arguments *)
  CommandLine_new ;;
  AddValue "numEnb" "Number of eNBs" ref_numEnb ;;
  AddValue "numUe" "Number of UEs per eNB" ref_numUe ;;
  AddValue "simTime" "Total duration of the simulation [s])" ref_simTime ;;
  AddValue "interPacketInterval" "Inter-packet interval [us])"
           ref_interPacketInterval ;;
  AddValue "harq" "Enable Hybrid ARQ" ref_harqEnabled ;;
  AddValue "rlcAm" "Enable RLC-AM" ref_rlcAmEnabled ;;
  Parse argv ;;

  rlcAm ← read rlcAmEnabled ;
  SetDefault "ns3::MmWaveHelper::RlcAmEnabled" (BooleanValue rlcAm) ;;
  harq ← read harqEnabled ;
  SetDefault "ns3::MmWaveHelper::HarqEnabled" (BooleanValue harq) ;;
  harq ← read harqEnabled ;
  SetDefault "ns3::MmWaveFlexTtiMacScheduler::HarqEnabled"
             (BooleanValue harq) ;;
  SetDefault "ns3::LteRlcAm::ReportBufferStatusTimer"
             (TimeValue (MicroSeconds 100.0%float)) ;;
  SetDefault "ns3::LteRlcUmLowLat::ReportBufferStatusTimer"
             (TimeValue (MicroSeconds 100.0%float)) ;;

  mmwaveHelper ← CreateObject_MmWaveHelper ;
  mmwaveHelper ← SetSchedulerType mmwaveHelper
                   "ns3::MmWaveFlexTtiMacScheduler" ;
  epcHelper ← CreateObject_MmWavePointToPointEpcHelper ;
  mmwaveHelper ← SetEpcHelper mmwaveHelper epcHelper ;
  harq ← read harqEnabled ;
  mmwaveHelper ← SetHarqEnabled mmwaveHelper harq ;

  ConfigStore_new ;;
  ConfigureDefaults ;;

  Parse argv ;;

  pgw ← GetPgwNode epcHelper ;

  (* Create a single RemoteHost *)
  remoteHostContainer ← NodeContainer_new L_remoteHostContainer ;
  remoteHostContainer ← Create L_remoteHostContainer remoteHostContainer 1 ;
  remoteHost ← Get L_remoteHostContainer remoteHostContainer 0 ;
  InternetStackHelper_new ;;
  InternetStack_Install remoteHostContainer ;;

  (* Create the Internet *)
  p2ph ← PointToPointHelper_new ;
  p2ph ← SetDeviceAttribute p2ph "DataRate"
           (DataRateValue (DataRate_of "100Gb/s")) ;
  p2ph ← SetDeviceAttribute p2ph "Mtu" (UintegerValue 1500) ;
  p2ph ← SetChannelAttribute p2ph "Delay" (TimeValue (Seconds 0.010%float)) ;
  internetDevices ← P2P_Install p2ph pgw remoteHost ;
  ipv4h ← Ipv4AddressHelper_new ;
  ipv4h ← SetBase ipv4h "1.0.0.0" "255.0.0.0" ;
  assigned ← Assign ipv4h internetDevices ;
  let ipv4h := assigned.1 in
  let internetIpIfaces := assigned.2 in
  (* interface 0 is localhost, 1 is the p2p device *)
  remoteHostAddr ← GetAddress internetIpIfaces 1 ;

  Ipv4StaticRoutingHelper_new ;;
  ipv4 ← GetObject_Ipv4 remoteHost ;
  remoteHostStaticRouting ← GetStaticRouting ipv4 ;
  AddNetworkRouteTo remoteHostStaticRouting "7.0.0.0" "255.0.0.0" 1 ;;

  ueNodes ← NodeContainer_new L_ueNodes ;
  enbNodes ← NodeContainer_new L_enbNodes ;
  n ← read numEnb ;
  enbNodes ← Create L_enbNodes enbNodes (to_uint32 n) ;
  n ← read numUe ;
  ueNodes ← Create L_ueNodes ueNodes (to_uint32 n) ;
  mret (mkLocals mmwaveHelper epcHelper pgw remoteHostContainer remoteHost
                 p2ph internetDevices ipv4h internetIpIfaces remoteHostAddr
                 remoteHostStaticRouting ueNodes enbNodes).

(** The process starts with nothing registered and nothing created. *)
Definition start : State :=
  mkState initial_vars (mkCommandLine []) empty_world [].

Definition main (argv : list string) : Outcome Locals :=
  main_with initial_vars argv start.

End Script.

(** ** An instance of the interface

    Used to run the script on concrete command lines: unsigned decimal
    numbers, flags given as true/false or toggled by a bare option,
    attribute names under "ns3::" accepted, no configuration file loaded,
    and an EPC core of three nodes of which the first is the PGW. *)

Definition is_digit (c : ascii) : bool :=
  ((0 <=? digit_of c)%Z && (digit_of c <=? 9)%Z)%bool.

Fixpoint decimal_value (s : string) (acc : Z) : option Z :=
  match s with
  | EmptyString => Some acc
  | String c rest =>
      if is_digit c then decimal_value rest (acc * 10 + digit_of c) else None
  end.

Definition decimal (s : string) : option Z :=
  match s with
  | EmptyString => None
  | _ => decimal_value s 0
  end.

Definition plain_parse_uint16 (s : string) : option Z :=
  match decimal s with
  | Some n => if (n <? 65536)%Z then Some n else None
  | None => None
  end.

Definition plain_parse_double (s : string) : option float :=
  match decimal s with
  | Some n => if (n <? 1000000)%Z then Some (PrimFloat.of_uint63 (Uint63.of_Z n))
              else None
  | None => None
  end.

Definition plain_parse_bool (s : string) (current : bool) : option bool :=
  if String.eqb s "" then Some (negb current)
  else if String.eqb s "true" || String.eqb s "1" then Some true
  else if String.eqb s "false" || String.eqb s "0" then Some false
  else None.

Definition plain_builtin_option (name : string) : bool :=
  existsb (String.eqb name)
          ["PrintHelp"; "help"; "PrintVersion"; "version"; "PrintGroups";
           "PrintTypeIds"; "PrintGlobals"].

Definition plain_SetAttributeFailSafe (name value : string) (d : Defaults)
  : option Defaults :=
  if String.prefix "ns3::" name then Some (<[name := StringValue value]> d)
  else None.

Definition plain_MmWaveHelper_new (d : Defaults) : MmWaveHelper :=
  let flag name :=
    match d !! name with
    | Some (BooleanValue b) => b
    | _ => false
    end in
  mkMmWaveHelper "" None (flag "ns3::MmWaveHelper::HarqEnabled")
                 (flag "ns3::MmWaveHelper::RlcAmEnabled").

Definition plain_ns3 : Ns3 :=
  {| parse_uint16 := plain_parse_uint16;
     parse_double := plain_parse_double;
     parse_bool := plain_parse_bool;
     builtin_option := plain_builtin_option;
     SetAttributeFailSafe := plain_SetAttributeFailSafe;
     ConfigStore_load := fun d => d;
     MmWaveHelper_new := plain_MmWaveHelper_new;
     epc_node_count := 3;
     epc_pgw_offset := 0 |}.

(** ** The run of [main] in closed form

    [main] has no branch of its own: its outcome is fixed by the results of
    the two calls of [Parse].  The definitions below give the registered
    options, the log and the world at each of the three ways out. *)

Section Run.
Context {fw : Ns3}.

Definition registered : list Item :=
  [ mkItem "numEnb" "Number of eNBs" ref_numEnb;
    mkItem "numUe" "Number of UEs per eNB" ref_numUe;
    mkItem "simTime" "Total duration of the simulation [s])" ref_simTime;
    mkItem "interPacketInterval" "Inter-packet interval [us])"
           ref_interPacketInterval;
    mkItem "harq" "Enable Hybrid ARQ" ref_harqEnabled;
    mkItem "rlcAm" "Enable RLC-AM" ref_rlcAmEnabled ].

(** Lines 28-35. *)
Definition log_parse (argv : list string) : list Call :=
  [ Construct L_cmd;
    CommandLine_AddValue "numEnb" "Number of eNBs" ref_numEnb;
    CommandLine_AddValue "numUe" "Number of UEs per eNB" ref_numUe;
    CommandLine_AddValue "simTime" "Total duration of the simulation [s])"
                         ref_simTime;
    CommandLine_AddValue "interPacketInterval" "Inter-packet interval [us])"
                         ref_interPacketInterval;
    CommandLine_AddValue "harq" "Enable Hybrid ARQ" ref_harqEnabled;
    CommandLine_AddValue "rlcAm" "Enable RLC-AM" ref_rlcAmEnabled;
    CommandLine_Parse argv ].

(** Lines 37-53, with the variables as the first [Parse] left them. *)
Definition log_configure (argv : list string) (v1 : Vars) : list Call :=
  [ Config_SetDefault "ns3::MmWaveHelper::RlcAmEnabled"
                      (BooleanValue (rlcAmEnabled v1));
    Config_SetDefault "ns3::MmWaveHelper::HarqEnabled"
                      (BooleanValue (harqEnabled v1));
    Config_SetDefault "ns3::MmWaveFlexTtiMacScheduler::HarqEnabled"
                      (BooleanValue (harqEnabled v1));
    Config_SetDefault "ns3::LteRlcAm::ReportBufferStatusTimer"
                      (TimeValue (MicroSeconds 100.0%float));
    Config_SetDefault "ns3::LteRlcUmLowLat::ReportBufferStatusTimer"
                      (TimeValue (MicroSeconds 100.0%float));
    CreateObject L_mmwaveHelper;
    MmWaveHelper_SetSchedulerType "ns3::MmWaveFlexTtiMacScheduler";
    CreateObject L_epcHelper;
    MmWaveHelper_SetEpcHelper;
    MmWaveHelper_SetHarqEnabled (harqEnabled v1);
    Construct L_inputConfig;
    ConfigStore_ConfigureDefaults;
    CommandLine_Parse argv ].

Definition pgw_node : nat := epc_pgw_offset.
Definition remote_host_node : nat := epc_node_count.

Definition link_devices : list NetDevice :=
  [ mkDevice pgw_node 0; mkDevice remote_host_node 0 ].

(** Lines 55-85, with the variables as the second [Parse] left them. *)
Definition log_topology (v2 : Vars) : list Call :=
  [ EpcHelper_GetPgwNode;
    Construct L_remoteHostContainer;
    NodeContainer_Create L_remoteHostContainer 1;
    NodeContainer_Get L_remoteHostContainer 0;
    Construct L_internet;
    InternetStackHelper_Install [remote_host_node];
    Construct L_p2ph;
    PointToPointHelper_SetDeviceAttribute
      "DataRate" (DataRateValue (DataRate_of "100Gb/s"));
    PointToPointHelper_SetDeviceAttribute "Mtu" (UintegerValue 1500);
    PointToPointHelper_SetChannelAttribute
      "Delay" (TimeValue (Seconds 0.010%float));
    PointToPointHelper_Install pgw_node remote_host_node;
    Construct L_ipv4h;
    Ipv4AddressHelper_SetBase "1.0.0.0" "255.0.0.0";
    Ipv4AddressHelper_Assign link_devices;
    Ipv4InterfaceContainer_GetAddress 1;
    Construct L_ipv4RoutingHelper;
    Node_GetObject_Ipv4 remote_host_node;
    Ipv4StaticRoutingHelper_GetStaticRouting remote_host_node;
    Ipv4StaticRouting_AddNetworkRouteTo remote_host_node
                                        "7.0.0.0" "255.0.0.0" 1;
    Construct L_ueNodes;
    Construct L_enbNodes;
    NodeContainer_Create L_enbNodes (to_uint32 (numEnb v2));
    NodeContainer_Create L_ueNodes (to_uint32 (numUe v2)) ].

(** The defaults after lines 37-42, from those the first [Parse] left. *)
Definition configured_defaults (v1 : Vars) (d1 : Defaults) : Defaults :=
  <["ns3::LteRlcUmLowLat::ReportBufferStatusTimer" :=
      TimeValue (MicroSeconds 100.0%float)]>
  (<["ns3::LteRlcAm::ReportBufferStatusTimer" :=
      TimeValue (MicroSeconds 100.0%float)]>
  (<["ns3::MmWaveFlexTtiMacScheduler::HarqEnabled" :=
      BooleanValue (harqEnabled v1)]>
  (<["ns3::MmWaveHelper::HarqEnabled" := BooleanValue (harqEnabled v1)]>
  (<["ns3::MmWaveHelper::RlcAmEnabled" := BooleanValue (rlcAmEnabled v1)]>
     d1)))).

Definition final_helper (v1 : Vars) (d1 : Defaults) : MmWaveHelper :=
  let h := MmWaveHelper_new (configured_defaults v1 d1) in
  mkMmWaveHelper "ns3::MmWaveFlexTtiMacScheduler"
                 (Some (mkEpcHelper pgw_node))
                 (harqEnabled v1) (m_rlcAmEnabled h).

Definition final_p2ph : PointToPointHelper :=
  mkP2P (<["Mtu" := UintegerValue 1500]>
           (<["DataRate" := DataRateValue (DataRate_of "100Gb/s")]> ∅))
        (<["Delay" := TimeValue (Seconds 0.010%float)]> ∅).

Definition the_link : P2PLink :=
  mkLink pgw_node remote_host_node
         (m_deviceFactory final_p2ph) (m_channelFactory final_p2ph).

Definition link_interfaces : list Ipv4Interface :=
  [ mkInterface pgw_node (mkDevice pgw_node 0) 16777217 4278190080;
    mkInterface remote_host_node (mkDevice remote_host_node 0)
                16777218 4278190080 ].

Definition the_route : Route := mkRoute 117440512 4278190080 1.

Definition enb_count (v2 : Vars) : nat := Z.to_nat (to_uint32 (numEnb v2)).
Definition ue_count (v2 : Vars) : nat := Z.to_nat (to_uint32 (numUe v2)).

Definition final_world (v2 : Vars) (d2 : Defaults) : World :=
  mkWorld d2
          (epc_node_count + 1 + enb_count v2 + ue_count v2)%nat
          [remote_host_node]
          [the_link]
          link_interfaces
          (<[remote_host_node := [the_route]]> ∅).

Definition final_locals (v1 v2 : Vars) (d1 : Defaults) : Locals :=
  mkLocals (final_helper v1 d1)
           (mkEpcHelper pgw_node)
           pgw_node
           [remote_host_node]
           remote_host_node
           final_p2ph
           link_devices
           (mkAddressHelper 16777216 4278190080 3)
           link_interfaces
           16777218
           remote_host_node
           (seq (epc_node_count + 1 + enb_count v2) (ue_count v2))
           (seq (epc_node_count + 1) (enb_count v2)).

(** What the two calls of [Parse] compute, and the outcome of [main] they
    determine. *)
Definition first_parse (v0 : Vars) (argv : list string) : ParseResult :=
  parse_argv registered argv v0 ∅.

Definition second_parse (argv : list string) (v1 : Vars) (d1 : Defaults)
  : ParseResult :=
  parse_argv registered argv v1 (ConfigStore_load (configured_defaults v1 d1)).

Definition script_outcome (v0 : Vars) (argv : list string) : Outcome Locals :=
  match first_parse v0 argv with
  | ParseExit code d => Exit code (set_defaults d empty_world) (log_parse argv)
  | ParseOk v1 d1 =>
      match second_parse argv v1 d1 with
      | ParseExit code d =>
          Exit code (mkWorld d epc_node_count [] [] [] ∅)
               (log_parse argv ++ log_configure argv v1)%list
      | ParseOk v2 d2 =>
          Ret (final_locals v1 v2 d1)
              (mkState v2 (mkCommandLine registered) (final_world v2 d2)
                       (log_parse argv ++ log_configure argv v1
                                  ++ log_topology v2)%list)
      end
  end.

End Run.

(** ** Observations on an outcome *)

(** [main] ran to its end and [P] holds of its locals and final state; the
    only other way out is the framework ending the process inside
    [Parse], and no access of the script faults. *)
Definition on_completion {A : Type} (argv : list string) (o : Outcome A)
    (P : A -> State -> Prop) : Prop :=
  match o with
  | Ret a s => P a s
  | Exit _ _ l => last l = Some (CommandLine_Parse argv)
  | Fault _ _ => False
  end.

Definition log_of {A : Type} (o : Outcome A) : list Call :=
  match o with
  | Ret _ s => log s
  | Exit _ _ l => l
  | Fault _ l => l
  end.

(** The hand-off to the simulation engine's event loop is
    [Simulator::Run]. *)
Definition is_event_loop_call (c : Call) : bool :=
  match c with
  | Simulator_Run => true
  | _ => false
  end.

Definition hands_off (l : list Call) : bool := existsb is_event_loop_call l.

Definition returned {A : Type} (o : Outcome A) : bool :=
  match o with
  | Ret _ _ => true
  | _ => false
  end.

Definition is_Some_dec {A : Type} (o : option A) : bool :=
  match o with
  | Some _ => true
  | None => false
  end.

(** The option surface: name and type of each [AddValue] call. *)
Definition surface (l : list Call) : list (string * ValueType) :=
  omap (fun c => match c with
                 | CommandLine_AddValue name _ r => Some (name, ref_type r)
                 | _ => None
                 end) l.

Definition flag_names : list string :=
  ["numEnb"; "numUe"; "simTime"; "interPacketInterval"; "harq"; "rlcAm"].

(** An argument supplies a flag when it is an option whose name is one of
    the six. *)
Definition names_flag (param : string) : bool :=
  match HandleOption param with
  | Some (name, _) => existsb (String.eqb name) flag_names
  | None => false
  end.

Definition supplies_no_flag (argv : list string) : bool :=
  forallb (fun param => negb (names_flag param)) (tail argv).

(** *** Setup phases *)

Inductive Phase : Type :=
| ParseArguments
| SetGlobalDefaults
| InstantiateHelpers
| ParseConfigStore
| CreateRemoteHostAndLink
| AssignAddresses
| InstallStaticRoute
| CreateNodeContainers
| RunSimulation.

#[global] Instance Phase_eq_dec : EqDecision Phase.
Proof. solve_decision. Defined.

Definition phase_of (c : Call) : Phase :=
  match c with
  | Construct L_cmd | CommandLine_AddValue _ _ _ | CommandLine_Parse _ =>
      ParseArguments
  | Config_SetDefault _ _ => SetGlobalDefaults
  | Construct L_mmwaveHelper | Construct L_epcHelper | CreateObject _
  | MmWaveHelper_SetSchedulerType _ | MmWaveHelper_SetEpcHelper
  | MmWaveHelper_SetHarqEnabled _ => InstantiateHelpers
  | Construct L_inputConfig | ConfigStore_ConfigureDefaults =>
      ParseConfigStore
  | EpcHelper_GetPgwNode
  | Construct L_remoteHostContainer | Construct L_internet | Construct L_p2ph
  | NodeContainer_Create L_remoteHostContainer _
  | NodeContainer_Get L_remoteHostContainer _
  | InternetStackHelper_Install _
  | PointToPointHelper_SetDeviceAttribute _ _
  | PointToPointHelper_SetChannelAttribute _ _
  | PointToPointHelper_Install _ _ => CreateRemoteHostAndLink
  | Construct L_ipv4h | Ipv4AddressHelper_SetBase _ _
  | Ipv4AddressHelper_Assign _ | Ipv4InterfaceContainer_GetAddress _ =>
      AssignAddresses
  | Construct L_ipv4RoutingHelper | Node_GetObject_Ipv4 _
  | Ipv4StaticRoutingHelper_GetStaticRouting _
  | Ipv4StaticRouting_AddNetworkRouteTo _ _ _ _ => InstallStaticRoute
  | Construct L_ueNodes | Construct L_enbNodes
  | NodeContainer_Create _ _ | NodeContainer_Get _ _ => CreateNodeContainers
  | Simulator_Stop _ | Simulator_Run | Simulator_Destroy => RunSimulation
  end.

(** The phases of a log, in order, a run of calls of one phase counted
    once. *)
Fixpoint phases (l : list Call) : list Phase :=
  match l with
  | [] => []
  | c :: rest =>
      match phases rest with
      | p :: ps => if decide (phase_of c = p) then p :: ps
                   else phase_of c :: p :: ps
      | [] => [phase_of c]
      end
  end.

(** The order as the specification lists it. *)
Definition listed_order : list Phase :=
  [ ParseArguments; SetGlobalDefaults; InstantiateHelpers; ParseConfigStore;
    CreateRemoteHostAndLink; AssignAddresses; InstallStaticRoute;
    CreateNodeContainers ].

(** The order of the source: the arguments are parsed a second time after
    the configuration store (line 53). *)
Definition source_order : list Phase :=
  [ ParseArguments; SetGlobalDefaults; InstantiateHelpers; ParseConfigStore;
    ParseArguments;
    CreateRemoteHostAndLink; AssignAddresses; InstallStaticRoute;
    CreateNodeContainers ].

(** *** What an execution leaves behind *)

(** The log with the text of the command line left out. *)
Definition erase_argv (l : list Call) : list Call :=
  map (fun c => match c with
                | CommandLine_Parse _ => CommandLine_Parse []
                | _ => c
                end) l.

(** The configuration an execution ends with: how it ended, the objects
    [main] holds, the world, and the calls made. *)
Inductive Configuration : Type :=
| Returned (r : Locals) (w : World) (calls : list Call)
| Exited (code : Z) (w : World) (calls : list Call)
| Faulted (w : World) (calls : list Call).

Definition configuration (o : Outcome Locals) : Configuration :=
  match o with
  | Ret r s => Returned r (world s) (erase_argv (log s))
  | Exit code w l => Exited code w (erase_argv l)
  | Fault w l => Faulted w (erase_argv l)
  end.

(** Two initialisations of lines 18-25 that agree on everything but
    [simTime], [interPacketInterval], [minDistance] and [maxDistance]. *)
Definition agree_on_used (v v' : Vars) : bool :=
  (numEnb v =? numEnb v')%Z && (numUe v =? numUe v')%Z
  && Bool.eqb (harqEnabled v) (harqEnabled v')
  && Bool.eqb (rlcAmEnabled v) (rlcAmEnabled v').

Definition is_timing_name (name : string) : bool :=
  String.eqb name "simTime" || String.eqb name "interPacketInterval".

Section Timing.
Context {fw : Ns3}.

Definition accepted_double (value : string) : bool :=
  match parse_double value with
  | Some _ => true
  | None => false
  end.

(** Two arguments are the same, or both give a value the framework accepts
    as a double to the same one of [simTime], [interPacketInterval]. *)
Definition same_but_timing_value (a a' : string) : bool :=
  String.eqb a a'
  || match HandleOption a, HandleOption a' with
     | Some (name, value), Some (name', value') =>
         String.eqb name name' && is_timing_name name
         && accepted_double value && accepted_double value'
     | _, _ => false
     end.

Fixpoint same_but_timing_values (args args' : list string) : bool :=
  match args, args' with
  | [], [] => true
  | a :: rest, a' :: rest' =>
      same_but_timing_value a a' && same_but_timing_values rest rest'
  | _, _ => false
  end.

(** Command lines that differ only in the values of the two options (the
    program name is not an argument and is not compared). *)
Definition differ_only_in_timing (argv argv' : list string) : bool :=
  match argv, argv' with
  | [], [] => true
  | _ :: args, _ :: args' => same_but_timing_values args args'
  | _, _ => false
  end.

End Timing.

(** *** Calls of one kind, to be picked out of a log *)

Definition is_create_helper (c : Call) : bool :=
  match c with
  | CreateObject _ => true
  | _ => false
  end.

Definition is_remote_host_creation (c : Call) : bool :=
  match c with
  | NodeContainer_Create L_remoteHostContainer _ => true
  | _ => false
  end.

Definition is_link_installation (c : Call) : bool :=
  match c with
  | PointToPointHelper_Install _ _ => true
  | _ => false
  end.

Definition is_stack_installation (c : Call) : bool :=
  match c with
  | InternetStackHelper_Install _ => true
  | _ => false
  end.

Definition is_address_base (c : Call) : bool :=
  match c with
  | Ipv4AddressHelper_SetBase _ _ => true
  | _ => false
  end.

Definition is_route_installation (c : Call) : bool :=
  match c with
  | Ipv4StaticRouting_AddNetworkRouteTo _ _ _ _ => true
  | _ => false
  end.

Definition is_link_attribute (c : Call) : bool :=
  match c with
  | PointToPointHelper_SetDeviceAttribute _ _ => true
  | PointToPointHelper_SetChannelAttribute _ _ => true
  | _ => false
  end.

(** The six options of the script, with the types of their variables. *)
Definition six_parameters : list (string * ValueType) :=
  [ ("numEnb", T_uint16); ("numUe", T_uint16); ("simTime", T_double);
    ("interPacketInterval", T_double); ("harq", T_bool); ("rlcAm", T_bool) ].

(** *** Further observations on logs and worlds *)

Definition is_parse_call (c : Call) : bool :=
  match c with
  | CommandLine_Parse _ => true
  | _ => false
  end.

Definition is_container_creation (c : Call) : bool :=
  match c with
  | NodeContainer_Create _ _ => true
  | _ => false
  end.

Definition is_default_setting (c : Call) : bool :=
  match c with
  | Config_SetDefault _ _ => true
  | _ => false
  end.

(** A node nothing was done to: no Internet stack, no end of a link, no
    IPv4 interface, no static route. *)
Definition node_is_bare (w : World) (n : nat) : bool :=
  negb (existsb (Nat.eqb n) (internet_nodes w))
  && forallb (fun l => negb (Nat.eqb (link_a l) n)
                       && negb (Nat.eqb (link_b l) n)) (links w)
  && forallb (fun i => negb (Nat.eqb (if_node i) n)) (interfaces w)
  && negb (is_Some_dec (static_routes w !! n)).

(** ** Relations used in the proofs *)

(** The two 16-bit variables hold 16-bit values. *)
Definition in_range (v : Vars) : Prop :=
  (0 <= numEnb v < 65536)%Z /\ (0 <= numUe v < 65536)%Z.

(** Two results of the parser that agree on the way out, on the defaults
    and on the variables the script reads. *)
Definition parse_agree (r r' : ParseResult) : Prop :=
  match r, r' with
  | ParseOk v d, ParseOk v' d' => agree_on_used v v' = true /\ d = d'
  | ParseExit c d, ParseExit c' d' => c = c' /\ d = d'
  | _, _ => False
  end.

(** The three ways out of [main], each with the outcome it gives. *)
Inductive MainCase `{fw : Ns3} (argv : list string) : Prop :=
| exits_in_first_parse (c : Z) (d : Defaults) :
    first_parse initial_vars argv = ParseExit c d ->
    main argv = Exit c (set_defaults d empty_world) (log_parse argv) ->
    MainCase argv
| exits_in_second_parse (v1 : Vars) (d1 : Defaults) (c : Z) (d : Defaults) :
    first_parse initial_vars argv = ParseOk v1 d1 ->
    second_parse argv v1 d1 = ParseExit c d ->
    main argv = Exit c (mkWorld d epc_node_count [] [] [] ∅)
                     (log_parse argv ++ log_configure argv v1)%list ->
    MainCase argv
| runs_to_end (v1 : Vars) (d1 : Defaults) (v2 : Vars) (d2 : Defaults) :
    first_parse initial_vars argv = ParseOk v1 d1 ->
    second_parse argv v1 d1 = ParseOk v2 d2 ->
    in_range v2 ->
    main argv = Ret (final_locals v1 v2 d1)
                    (mkState v2 (mkCommandLine registered)
                             (final_world v2 d2)
                             (log_parse argv ++ log_configure argv v1
                                        ++ log_topology v2)%list) ->
    MainCase argv.

(** * Proofs *)

(** ** The run of [main] *)

Ltac run_script :=
  cbv [main main_with mbind mret M_bind M_ret call get_vars put_vars get_cmd
       put_cmd get_world put_world exit fault read
       CommandLine_new AddValue Parse SetDefault CreateObject_MmWaveHelper
       CreateObject_MmWavePointToPointEpcHelper SetSchedulerType SetEpcHelper
       SetHarqEnabled ConfigStore_new ConfigureDefaults GetPgwNode
       NodeContainer_new Create Get InternetStackHelper_new
       InternetStack_Install PointToPointHelper_new SetDeviceAttribute
       SetChannelAttribute P2P_Install Ipv4AddressHelper_new SetBase Assign
       GetAddress Ipv4StaticRoutingHelper_new GetObject_Ipv4 GetStaticRouting
       AddNetworkRouteTo start vars cmd world log m_options defaults
       node_count internet_nodes links interfaces static_routes
       set_defaults set_node_count set_internet_nodes set_links
       set_interfaces set_static_routes empty_world app
       m_deviceFactory m_channelFactory m_pgw].

Section RunProofs.
Context {fw : Ns3}.

Lemma main_with_run (v0 : Vars) (argv : list string) :
  main_with v0 argv start = script_outcome v0 argv.
Proof.
  unfold script_outcome, first_parse, second_parse.
  run_script. fold registered.
  destruct (parse_argv registered argv v0 ∅) as [v1 d1|c d]; [|reflexivity].
  run_script. fold (configured_defaults v1 d1).
  destruct (parse_argv registered argv v1 _) as [v2 d2|c d]; [|reflexivity].
  run_script.
  (* remoteHostContainer.Get(0): the container holds the node just made *)
  change (seq (0 + epc_node_count) (Z.to_nat 1) !! Z.to_nat 0)
    with (Some epc_node_count).
  run_script.
  (* internetIpIfaces.GetAddress(1): two interfaces were assigned *)
  change ((assign_devices _ _).2 !! Z.to_nat 1)
    with (Some (mkInterface remote_host_node (mkDevice remote_host_node 0)
                            16777218 4278190080)).
  run_script.
  (* remoteHost->GetObject<Ipv4>(): the stack was installed on line 62 *)
  change (existsb (Nat.eqb epc_node_count)
                  (seq (0 + epc_node_count) (Z.to_nat 1)))
    with (Nat.eqb epc_node_count epc_node_count || false)%bool.
  rewrite Nat.eqb_refl.
  reflexivity.
Qed.

Lemma main_run (argv : list string) :
  main argv = script_outcome initial_vars argv.
Proof. unfold main. exact (main_with_run initial_vars argv). Qed.

(** ** The option parser *)

(** *** The 16-bit variables stay in range *)

Lemma wrap16_range (z : Z) : (0 <= wrap16 z < 65536)%Z.
Proof. unfold wrap16. apply Z.mod_pos_bound. lia. Qed.

Lemma Item_Parse_in_range (i : Item) (value : string) (v v' : Vars) :
  in_range v -> Item_Parse i value v = Some v' -> in_range v'.
Proof.
  unfold in_range, Item_Parse. intros [He Hu] H.
  destruct (m_valuePtr i);
    [ destruct (parse_uint16 value) | destruct (parse_uint16 value)
    | destruct (parse_double value) | destruct (parse_double value)
    | destruct (parse_bool value _) | destruct (parse_bool value _) ];
    inversion H; subst; simpl; auto using wrap16_range.
Qed.

Lemma HandleArgument_in_range opts name value v d v' d' :
  in_range v -> HandleArgument opts name value v d = ParseOk v' d' ->
  in_range v'.
Proof.
  unfold HandleArgument. intros Hv H.
  destruct (builtin_option name); [discriminate|].
  destruct (find_item opts name) as [i|].
  - destruct (Item_Parse i value v) as [w|] eqn:E; inversion H; subst.
    eapply Item_Parse_in_range; eauto.
  - destruct (SetAttributeFailSafe name value d); inversion H; subst; auto.
Qed.

Lemma parse_params_in_range opts args : forall v d v' d',
  in_range v -> parse_params opts args v d = ParseOk v' d' -> in_range v'.
Proof.
  induction args as [|param rest IH]; simpl; intros v d v' d' Hv H.
  - inversion H; subst; auto.
  - destruct (HandleOption param) as [[name value]|]; [|eauto].
    destruct (HandleArgument opts name value v d) as [w e|c e] eqn:E;
      [|discriminate].
    eapply IH; [|exact H]. eapply HandleArgument_in_range; eauto.
Qed.

Lemma parse_argv_in_range opts argv v d v' d' :
  in_range v -> parse_argv opts argv v d = ParseOk v' d' -> in_range v'.
Proof.
  destruct argv as [|prog args]; simpl; intros Hv H.
  - inversion H; subst; auto.
  - eapply parse_params_in_range; eauto.
Qed.

Lemma initial_vars_in_range : in_range initial_vars.
Proof. unfold in_range; simpl; lia. Qed.

Lemma to_uint32_in_range (z : Z) : (0 <= z < 65536)%Z -> to_uint32 z = z.
Proof. intros H. unfold to_uint32. apply Z.mod_small. lia. Qed.

End RunProofs.

Section ParserProofs.
Context {fw : Ns3}.

(** *** Arguments that name none of the six options *)

Lemma find_item_no_flag (name : string) :
  existsb (String.eqb name) flag_names = false ->
  find_item registered name = None.
Proof.
  unfold flag_names, find_item, registered.
  cbn [existsb List.find m_name]. intros H.
  repeat (apply orb_false_elim in H; destruct H as [E H];
          rewrite (String.eqb_sym _ name), E; clear E).
  reflexivity.
Qed.

Lemma HandleArgument_no_flag name value v d v' d' :
  existsb (String.eqb name) flag_names = false ->
  HandleArgument registered name value v d = ParseOk v' d' -> v' = v.
Proof.
  intros Hn. unfold HandleArgument. rewrite (find_item_no_flag name Hn).
  destruct (builtin_option name); [discriminate|].
  destruct (SetAttributeFailSafe name value d); intros H; inversion H; auto.
Qed.

Lemma parse_params_no_flag args : forall v d v' d',
  forallb (fun param => negb (names_flag param)) args = true ->
  parse_params registered args v d = ParseOk v' d' -> v' = v.
Proof.
  induction args as [|param rest IH]; simpl; intros v d v' d' Hf H.
  - inversion H; auto.
  - apply andb_prop in Hf. destruct Hf as [Hp Hrest].
    unfold names_flag in Hp.
    destruct (HandleOption param) as [[name value]|]; [|eauto].
    apply negb_true_iff in Hp.
    destruct (HandleArgument registered name value v d) as [w e|c e] eqn:E;
      [|discriminate].
    apply HandleArgument_no_flag in E; [|exact Hp]. subst w. eauto.
Qed.

Lemma parse_argv_no_flag argv v d v' d' :
  supplies_no_flag argv = true ->
  parse_argv registered argv v d = ParseOk v' d' -> v' = v.
Proof.
  unfold supplies_no_flag. destruct argv as [|prog args]; simpl.
  - intros _ H. inversion H; auto.
  - apply parse_params_no_flag.
Qed.

(** *** Variables the script never reads do not steer the parser *)

Lemma agree_on_used_spec (v v' : Vars) :
  agree_on_used v v' = true <->
  numEnb v = numEnb v' /\ numUe v = numUe v' /\
  harqEnabled v = harqEnabled v' /\ rlcAmEnabled v = rlcAmEnabled v'.
Proof.
  unfold agree_on_used.
  rewrite !andb_true_iff, !Z.eqb_eq, !eqb_true_iff. tauto.
Qed.

Lemma Item_Parse_agree (i : Item) (value : string) (v v' : Vars) :
  agree_on_used v v' = true ->
  match Item_Parse i value v, Item_Parse i value v' with
  | Some w, Some w' => agree_on_used w w' = true
  | None, None => True
  | _, _ => False
  end.
Proof.
  rewrite agree_on_used_spec. intros (He & Hu & Hh & Hr).
  unfold Item_Parse. rewrite <- Hh, <- Hr.
  destruct (m_valuePtr i);
    [ destruct (parse_uint16 value) | destruct (parse_uint16 value)
    | destruct (parse_double value) | destruct (parse_double value)
    | destruct (parse_bool value _) | destruct (parse_bool value _) ];
    try exact I; apply agree_on_used_spec; simpl; auto.
Qed.

Lemma HandleArgument_agree opts name value v v' d :
  agree_on_used v v' = true ->
  parse_agree (HandleArgument opts name value v d)
              (HandleArgument opts name value v' d).
Proof.
  intros Hv. unfold HandleArgument.
  destruct (builtin_option name); [simpl; auto|].
  destruct (find_item opts name) as [i|].
  - pose proof (Item_Parse_agree i value v v' Hv) as H.
    destruct (Item_Parse i value v), (Item_Parse i value v');
      simpl; try contradiction; auto.
  - destruct (SetAttributeFailSafe name value d); simpl; auto.
Qed.

Lemma timing_name_cases (name : string) :
  is_timing_name name = true ->
  name = "simTime" \/ name = "interPacketInterval".
Proof.
  unfold is_timing_name. rewrite orb_true_iff, !String.eqb_eq. tauto.
Qed.

Lemma HandleArgument_timing name value value' v v' d :
  is_timing_name name = true ->
  accepted_double value = true -> accepted_double value' = true ->
  agree_on_used v v' = true ->
  parse_agree (HandleArgument registered name value v d)
              (HandleArgument registered name value' v' d).
Proof.
  intros Hn Ha Ha' Hv. unfold accepted_double in Ha, Ha'.
  unfold HandleArgument.
  destruct (builtin_option name); [simpl; auto|].
  apply agree_on_used_spec in Hv.
  destruct (timing_name_cases name Hn) as [-> | ->];
    unfold find_item, registered, Item_Parse; simpl;
    destruct (parse_double value); try discriminate;
    destruct (parse_double value'); try discriminate;
    simpl; split; auto; apply agree_on_used_spec; simpl; tauto.
Qed.

Lemma parse_params_agree args : forall args' v v' d,
  same_but_timing_values args args' = true ->
  agree_on_used v v' = true ->
  parse_agree (parse_params registered args v d)
              (parse_params registered args' v' d).
Proof.
  induction args as [|a rest IH]; intros [|a' rest'] v v' d Hs Hv;
    simpl in Hs; try discriminate.
  - simpl; auto.
  - apply andb_prop in Hs. destruct Hs as [Ha Hrest].
    assert (Hstep :
      match HandleOption a, HandleOption a' with
      | Some (n, x), Some (n', x') =>
          parse_agree (HandleArgument registered n x v d)
                      (HandleArgument registered n' x' v' d)
      | None, None => True
      | _, _ => False
      end).
    { unfold same_but_timing_value in Ha. apply orb_prop in Ha.
      destruct Ha as [Ha | Ha].
      - apply String.eqb_eq in Ha. subst a'.
        destruct (HandleOption a) as [[n x]|]; [|exact I].
        apply HandleArgument_agree; exact Hv.
      - destruct (HandleOption a) as [[n x]|]; [|discriminate].
        destruct (HandleOption a') as [[n' x']|]; [|discriminate].
        repeat (apply andb_prop in Ha; destruct Ha as [Ha ?]).
        apply String.eqb_eq in Ha. subst n'.
        apply HandleArgument_timing; auto. }
    simpl.
    destruct (HandleOption a) as [[n x]|], (HandleOption a') as [[n' x']|];
      try contradiction.
    + destruct (HandleArgument registered n x v d) as [w e|c e],
               (HandleArgument registered n' x' v' d) as [w' e'|c' e'];
        simpl in Hstep; try contradiction.
      * destruct Hstep as [Hw ->]. apply IH; auto.
      * exact Hstep.
    + apply IH; auto.
Qed.

Lemma parse_argv_agree argv argv' v v' d :
  differ_only_in_timing argv argv' = true ->
  agree_on_used v v' = true ->
  parse_agree (parse_argv registered argv v d)
              (parse_argv registered argv' v' d).
Proof.
  destruct argv as [|p args], argv' as [|p' args']; simpl;
    try discriminate; auto using parse_params_agree.
Qed.

End ParserProofs.

(** ** The three ways out of [main] *)

Section Cases.
Context {fw : Ns3}.

Lemma main_cases (argv : list string) : MainCase argv.
Proof.
  pose proof (main_run argv) as Hrun. unfold script_outcome in Hrun.
  destruct (first_parse initial_vars argv) as [v1 d1|c d] eqn:E1.
  - destruct (second_parse argv v1 d1) as [v2 d2|c d] eqn:E2.
    + eapply runs_to_end; eauto.
      eapply parse_argv_in_range; [|exact E2].
      eapply parse_argv_in_range; [|exact E1].
      exact initial_vars_in_range.
    + eapply exits_in_second_parse; eauto.
  - eapply exits_in_first_parse; eauto.
Qed.

Lemma lookup_insert_string {A : Type} (m : gmap string A) (i j : string)
    (x : A) :
  <[i := x]> m !! j = if String.eqb i j then Some x else m !! j.
Proof.
  rewrite lookup_insert.
  destruct (String.eqb_spec i j); case_decide; congruence.
Qed.

Lemma enb_count_in_range (v : Vars) :
  in_range v -> enb_count v = Z.to_nat (numEnb v).
Proof.
  intros [H _]. unfold enb_count. now rewrite to_uint32_in_range.
Qed.

Lemma ue_count_in_range (v : Vars) :
  in_range v -> ue_count v = Z.to_nat (numUe v).
Proof.
  intros [_ H]. unfold ue_count. now rewrite to_uint32_in_range.
Qed.

End Cases.

(** Splits a goal about [main argv] along [main_cases]. *)
Ltac by_main_cases argv :=
  let c := fresh "c" in let d := fresh "d" in
  let v1 := fresh "v1" in let d1 := fresh "d1" in
  let v2 := fresh "v2" in let d2 := fresh "d2" in
  let E1 := fresh "E1" in let E2 := fresh "E2" in
  let Hr := fresh "Hr" in let Hm := fresh "Hm" in
  destruct (main_cases argv)
    as [c d E1 Hm | v1 d1 c d E1 E2 Hm | v1 d1 v2 d2 E1 E2 Hr Hm];
  rewrite Hm.

(** ** The model at work *)

Example HandleOption_value :
  HandleOption "--numEnb=3" = Some ("numEnb", "3").
Proof. reflexivity. Qed.

Example HandleOption_bare : HandleOption "-harq" = Some ("harq", "").
Proof. reflexivity. Qed.

Example HandleOption_positional : HandleOption "numEnb=3" = None.
Proof. reflexivity. Qed.

Example Ipv4Address_network : Ipv4Address "1.0.0.0" = 16777216.
Proof. reflexivity. Qed.

Example Ipv4Mask_class_a : Ipv4Mask "255.0.0.0" = 4278190080.
Proof. reflexivity. Qed.

(** With three eNBs asked for: the PGW is node 0 of a core of three, the
    remote host is node 3 with address 1.0.0.2, the eNBs are nodes 4-6 and
    the single UE is node 7. *)
Example main_three_enbs :
  match @main plain_ns3 ["droneConfig"; "--numEnb=3"] with
  | Ret r s =>
      (pgw r, remoteHost r, remoteHostAddr r, enbNodes r, ueNodes r,
       node_count (world s))
  | _ => (0%nat, 0%nat, 0, [], [], 0%nat)
  end = (0%nat, 3%nat, 16777218, [4%nat; 5%nat; 6%nat], [7%nat], 8%nat).
Proof. vm_compute. reflexivity. Qed.

(** An option the framework answers itself ends the process, status 0,
    inside the first [Parse]. *)
Example main_help :
  match @main plain_ns3 ["droneConfig"; "--help"] with
  | Exit code _ l => (code, last l)
  | _ => (1, None)
  end = (0, Some (CommandLine_Parse ["droneConfig"; "--help"])).
Proof. vm_compute. reflexivity. Qed.

(** A value that is not a 16-bit number ends the process, status 1. *)
Example main_bad_value :
  match @main plain_ns3 ["droneConfig"; "--numEnb=70000"] with
  | Exit code _ _ => code
  | _ => 0
  end = 1.
Proof. vm_compute. reflexivity. Qed.

(** Without options on the command line the parser has nothing to
    reject, and [main] runs to its end whatever the framework. *)
Lemma parse_params_positional `{fw : Ns3} (opts : list Item)
    (args : list string) (v : Vars) (d : Defaults) :
  forallb (fun param => negb (is_Some_dec (HandleOption param))) args = true ->
  parse_params opts args v d = ParseOk v d.
Proof.
  induction args as [|param rest IH]; simpl; [reflexivity|].
  intros H. apply andb_prop in H. destruct H as [Hp Hrest].
  destruct (HandleOption param); [discriminate|]. auto.
Qed.

Lemma main_returns_without_options `{fw : Ns3} (argv : list string) :
  forallb (fun param => negb (is_Some_dec (HandleOption param))) (tail argv)
    = true ->
  returned (main argv) = true.
Proof.
  intros H. rewrite main_run. unfold script_outcome, first_parse, second_parse.
  destruct argv as [|prog args]; [reflexivity|].
  cbn [tail] in H. cbn [parse_argv].
  rewrite (parse_params_positional _ _ _ _ H).
  rewrite (parse_params_positional _ _ _ _ H). reflexivity.
Qed.

(** ** Hand-off to the event loop *)

(** C1, as stated, fails: started with no arguments, [main] runs to its
    end and returns without ever calling [Simulator::Run]. *)
Lemma main_returns_without_hand_off :
  returned (@main plain_ns3 ["droneConfig"]) = true /\
  hands_off (log_of (@main plain_ns3 ["droneConfig"])) = false.
Proof. vm_compute. split; reflexivity. Qed.

(** C1, amended: on every execution path [main] makes no hand-off to the
    simulation engine's event loop.  Either the process ends inside
    [CommandLine::Parse], or [main] returns right after creating the eNB
    and UE node containers, the creation of the UE nodes being its last
    call; in every case [Simulator::Run] has not been called. *)
Theorem main_never_hands_off `{fw : Ns3} (argv : list string) :
  hands_off (log_of (main argv)) = false /\
  on_completion argv (main argv) (fun _ s =>
    last (log s) = Some (NodeContainer_Create L_ueNodes (numUe (vars s)))).
Proof.
  by_main_cases argv.
  - split; reflexivity.
  - split; reflexivity.
  - split; [reflexivity|]. cbn [on_completion vars log].
    destruct Hr as [_ Hu]. unfold log_topology.
    rewrite (to_uint32_in_range _ Hu). reflexivity.
Qed.

(** ** The command-line surface *)

(** C2: for every command line, the options registered are exactly
    numEnb and numUe (unsigned), simTime and interPacketInterval (double),
    harq and rlcAm (bool), as the calls made and as the options the parser
    holds when [main] ends; and when no argument of the command line names
    one of them, both calls of [Parse] leave the variables at 1, 1, 2.0,
    100, true and false, so that the calls of the whole run are those of
    the default values. *)
Theorem command_line_surface `{fw : Ns3} (argv : list string) :
  surface (log_of (main argv)) = six_parameters /\
  on_completion argv (main argv) (fun _ s =>
    map (fun i => (m_name i, ref_type (m_valuePtr i))) (m_options (cmd s))
      = six_parameters) /\
  (supplies_no_flag argv = true ->
   on_completion argv (main argv) (fun _ s =>
     numEnb (vars s) = 1 /\ numUe (vars s) = 1 /\
     simTime (vars s) = 2.0%float /\
     interPacketInterval (vars s) = 100%float /\
     harqEnabled (vars s) = true /\ rlcAmEnabled (vars s) = false /\
     log s = (log_parse argv ++ log_configure argv initial_vars
                        ++ log_topology initial_vars)%list)).
Proof.
  by_main_cases argv.
  - repeat split.
  - repeat split.
  - split; [reflexivity|]. split; [reflexivity|]. intros Hn.
    apply (parse_argv_no_flag _ _ _ _ _ Hn) in E1. subst v1.
    apply (parse_argv_no_flag _ _ _ _ _ Hn) in E2. subst v2.
    cbn [on_completion vars log].
    repeat split; reflexivity.
Qed.

Lemma command_line_surface_witness :
  supplies_no_flag ["droneConfig"; "--ns3::LteRlcAm::PollRetransmitTimer=5";
                    "numUe=4"] = true /\
  returned (@main plain_ns3
              ["droneConfig"; "--ns3::LteRlcAm::PollRetransmitTimer=5";
               "numUe=4"]) = true /\
  on_completion
    ["droneConfig"; "--ns3::LteRlcAm::PollRetransmitTimer=5"; "numUe=4"]
    (@main plain_ns3
       ["droneConfig"; "--ns3::LteRlcAm::PollRetransmitTimer=5"; "numUe=4"])
    (fun _ s =>
       numEnb (vars s) = 1 /\ numUe (vars s) = 1 /\
       simTime (vars s) = 2.0%float /\
       interPacketInterval (vars s) = 100%float /\
       harqEnabled (vars s) = true /\ rlcAmEnabled (vars s) = false /\
       log s = (log_parse
                  ["droneConfig"; "--ns3::LteRlcAm::PollRetransmitTimer=5";
                   "numUe=4"]
                ++ log_configure
                     ["droneConfig";
                      "--ns3::LteRlcAm::PollRetransmitTimer=5"; "numUe=4"]
                     initial_vars
                ++ @log_topology plain_ns3 initial_vars)%list).
Proof.
  split; [reflexivity|]. split; [vm_compute; reflexivity|].
  exact (proj2 (proj2 (@command_line_surface plain_ns3
           ["droneConfig"; "--ns3::LteRlcAm::PollRetransmitTimer=5";
            "numUe=4"])) eq_refl).
Defined.

(** ** Node containers *)

(** C3: when [main] has run, the eNB container holds exactly [numEnb]
    nodes and the UE container exactly [numUe] nodes, all distinct; the
    number of UE nodes does not depend on [numEnb]. *)
Theorem container_sizes `{fw : Ns3} (argv : list string) :
  on_completion argv (main argv) (fun r s =>
    length (enbNodes r) = Z.to_nat (numEnb (vars s)) /\
    length (ueNodes r) = Z.to_nat (numUe (vars s)) /\
    NoDup (enbNodes r ++ ueNodes r)).
Proof.
  by_main_cases argv; try reflexivity.
  cbn [on_completion vars final_locals enbNodes ueNodes].
  rewrite !length_seq.
  rewrite <- (enb_count_in_range v2 Hr), <- (ue_count_in_range v2 Hr).
  repeat split.
  rewrite <- seq_app. apply NoDup_seq.
Qed.

(** ** Order of the setup *)

(** C4, as stated, fails: started with no arguments, the phases of [main]
    are not the eight listed; the arguments are parsed a second time
    between the configuration store and the remote host. *)
Lemma setup_order_not_as_listed :
  phases (log_of (@main plain_ns3 ["droneConfig"])) = source_order /\
  bool_decide (phases (log_of (@main plain_ns3 ["droneConfig"]))
               = listed_order) = false.
Proof. vm_compute. split; reflexivity. Qed.

(** C4, amended: on every execution that runs to the end of [main] the
    setup actions occur exactly in this order: parse the command-line
    arguments, set the global defaults, instantiate the two helpers, parse
    the configuration store, parse the command-line arguments a second
    time, create the remote host and the point-to-point link, assign
    addresses, install the static route, create the eNB and UE node
    containers. *)
Theorem setup_order `{fw : Ns3} (argv : list string) :
  on_completion argv (main argv) (fun _ s => phases (log s) = source_order).
Proof.
  by_main_cases argv; reflexivity.
Qed.

(** ** Global defaults *)

(** C5: with [harq] and [rlcAm] the values the first [Parse] leaves in the
    two flags, the script makes five calls of [Config::SetDefault] and only
    then constructs the helpers: RlcAmEnabled of MmWaveHelper is [rlcAm],
    HarqEnabled of MmWaveHelper and of MmWaveFlexTtiMacScheduler is [harq],
    the ReportBufferStatusTimer of LteRlcAm and of LteRlcUmLowLat is 100
    microseconds.  The MmWaveHelper is constructed under defaults that
    hold these five values, and its own HARQ setting is [harq]. *)
Theorem global_defaults_before_helpers `{fw : Ns3} (argv : list string)
    (v1 : Vars) (d1 : Defaults) :
  first_parse initial_vars argv = ParseOk v1 d1 ->
  (exists before after,
     log_of (main argv) =
       (before
        ++ [ Config_SetDefault "ns3::MmWaveHelper::RlcAmEnabled"
                               (BooleanValue (rlcAmEnabled v1));
             Config_SetDefault "ns3::MmWaveHelper::HarqEnabled"
                               (BooleanValue (harqEnabled v1));
             Config_SetDefault "ns3::MmWaveFlexTtiMacScheduler::HarqEnabled"
                               (BooleanValue (harqEnabled v1));
             Config_SetDefault "ns3::LteRlcAm::ReportBufferStatusTimer"
                               (TimeValue (MicroSeconds 100.0%float));
             Config_SetDefault "ns3::LteRlcUmLowLat::ReportBufferStatusTimer"
                               (TimeValue (MicroSeconds 100.0%float)) ]
        ++ CreateObject L_mmwaveHelper :: after)%list
     /\ existsb is_create_helper before = false
     /\ In (MmWaveHelper_SetHarqEnabled (harqEnabled v1)) after) /\
  on_completion argv (main argv) (fun r _ =>
    m_harqEnabled (mmwaveHelper r) = harqEnabled v1 /\
    exists d : Defaults,
      m_rlcAmEnabled (mmwaveHelper r) = m_rlcAmEnabled (MmWaveHelper_new d) /\
      d !! "ns3::MmWaveHelper::RlcAmEnabled"
        = Some (BooleanValue (rlcAmEnabled v1)) /\
      d !! "ns3::MmWaveHelper::HarqEnabled"
        = Some (BooleanValue (harqEnabled v1)) /\
      d !! "ns3::MmWaveFlexTtiMacScheduler::HarqEnabled"
        = Some (BooleanValue (harqEnabled v1)) /\
      d !! "ns3::LteRlcAm::ReportBufferStatusTimer"
        = Some (TimeValue (MicroSeconds 100.0%float)) /\
      d !! "ns3::LteRlcUmLowLat::ReportBufferStatusTimer"
        = Some (TimeValue (MicroSeconds 100.0%float))).
Proof.
  intros H1.
  by_main_cases argv; rewrite H1 in E1; inversion E1; subst.
  - split; [|reflexivity].
    exists (log_parse argv).
    eexists. split; [reflexivity|]. split; [reflexivity|].
    cbn. tauto.
  - split.
    + exists (log_parse argv).
      eexists. split; [reflexivity|]. split; [reflexivity|].
      cbn. tauto.
    + cbn [on_completion final_locals mmwaveHelper final_helper
           m_harqEnabled m_rlcAmEnabled].
      split; [reflexivity|].
      exists (configured_defaults v0 d0). split; [reflexivity|].
      unfold configured_defaults.
      repeat match goal with |- _ /\ _ => split end;
        rewrite !lookup_insert_string; reflexivity.
Qed.

Lemma global_defaults_before_helpers_witness :
  @first_parse plain_ns3 initial_vars
     ["droneConfig"; "--harq=false"; "--rlcAm=true"]
    = ParseOk (set_rlcAmEnabled true (set_harqEnabled false initial_vars)) ∅ /\
  on_completion ["droneConfig"; "--harq=false"; "--rlcAm=true"]
    (@main plain_ns3 ["droneConfig"; "--harq=false"; "--rlcAm=true"])
    (fun r _ =>
       m_harqEnabled (mmwaveHelper r) = false /\
       exists d : Defaults,
         m_rlcAmEnabled (mmwaveHelper r)
           = m_rlcAmEnabled (@MmWaveHelper_new plain_ns3 d) /\
         d !! "ns3::MmWaveHelper::RlcAmEnabled" = Some (BooleanValue true) /\
         d !! "ns3::MmWaveHelper::HarqEnabled" = Some (BooleanValue false) /\
         d !! "ns3::MmWaveFlexTtiMacScheduler::HarqEnabled"
           = Some (BooleanValue false) /\
         d !! "ns3::LteRlcAm::ReportBufferStatusTimer"
           = Some (TimeValue (MicroSeconds 100.0%float)) /\
         d !! "ns3::LteRlcUmLowLat::ReportBufferStatusTimer"
           = Some (TimeValue (MicroSeconds 100.0%float))).
Proof.
  split; [reflexivity|].
  exact (proj2 (@global_defaults_before_helpers plain_ns3
                  ["droneConfig"; "--harq=false"; "--rlcAm=true"]
                  (set_rlcAmEnabled true (set_harqEnabled false initial_vars))
                  ∅ eq_refl)).
Defined.

(** ** Remote host, link and addresses *)

(** C6, as stated, fails: it does not hold on every execution.  Asked for
    help, the framework ends the process inside the first [Parse], and
    neither a remote host, nor an Internet stack, nor a link, nor an
    address base has been created. *)
Lemma no_remote_host_when_parse_exits :
  returned (@main plain_ns3 ["droneConfig"; "--help"]) = false /\
  List.filter is_remote_host_creation
              (log_of (@main plain_ns3 ["droneConfig"; "--help"])) = [] /\
  List.filter is_stack_installation
              (log_of (@main plain_ns3 ["droneConfig"; "--help"])) = [] /\
  List.filter is_link_installation
              (log_of (@main plain_ns3 ["droneConfig"; "--help"])) = [] /\
  List.filter is_address_base
              (log_of (@main plain_ns3 ["droneConfig"; "--help"])) = [].
Proof. vm_compute. repeat split. Qed.

(** C6, amended: on every execution that runs to the end of [main],
    exactly one remote host node is created, the Internet stack is
    installed on it, and a single point-to-point link is installed, from
    the PGW node of the EPC helper to that remote host; the interfaces of
    its two devices get addresses of network 1.0.0.0 under mask
    255.0.0.0.  (The only other executions are those the framework ends
    inside [Parse].) *)
Theorem remote_host_and_link `{fw : Ns3} (argv : list string) :
  on_completion argv (main argv) (fun r s =>
    List.filter is_remote_host_creation (log s)
      = [NodeContainer_Create L_remoteHostContainer 1] /\
    remoteHostContainer r = [remoteHost r] /\
    List.filter is_stack_installation (log s)
      = [InternetStackHelper_Install [remoteHost r]] /\
    internet_nodes (world s) = [remoteHost r] /\
    pgw r = m_pgw (epcHelper r) /\
    List.filter is_link_installation (log s)
      = [PointToPointHelper_Install (pgw r) (remoteHost r)] /\
    map (fun l => (link_a l, link_b l)) (links (world s))
      = [(pgw r, remoteHost r)] /\
    List.filter is_address_base (log s)
      = [Ipv4AddressHelper_SetBase "1.0.0.0" "255.0.0.0"] /\
    map if_node (interfaces (world s)) = [pgw r; remoteHost r] /\
    map if_device (interfaces (world s)) = internetDevices r /\
    Forall (fun i => if_mask i = Ipv4Mask "255.0.0.0" /\
                     Z.land (if_address i) (if_mask i) = Ipv4Address "1.0.0.0")
           (interfaces (world s))).
Proof.
  by_main_cases argv; try reflexivity.
  cbn [on_completion].
  repeat match goal with |- _ /\ _ => split end; try reflexivity.
  repeat constructor.
Qed.

(** ** The static route *)

(** C7: the script installs exactly one static route, in the static
    routing of the remote host: a network route to 7.0.0.0 with mask
    255.0.0.0 through interface 1.  No other node gets a route. *)
Theorem one_static_route `{fw : Ns3} (argv : list string) :
  on_completion argv (main argv) (fun r s =>
    List.filter is_route_installation (log s)
      = [Ipv4StaticRouting_AddNetworkRouteTo (remoteHost r)
                                             "7.0.0.0" "255.0.0.0" 1] /\
    remoteHostStaticRouting r = remoteHost r /\
    static_routes (world s) !! remoteHost r
      = Some [mkRoute (Ipv4Address "7.0.0.0") (Ipv4Mask "255.0.0.0") 1] /\
    dom (static_routes (world s)) = {[ remoteHost r ]}).
Proof.
  by_main_cases argv; try reflexivity.
  cbn [on_completion final_locals final_world remoteHost
       remoteHostStaticRouting world static_routes].
  split; [reflexivity|]. split; [reflexivity|]. split.
  - apply lookup_insert_eq.
  - rewrite dom_insert_L, dom_empty_L. apply (right_id_L ∅ (∪)).
Qed.

(** ** No validation in the script *)

(** C8: the script checks nothing.  Whatever values the two calls of
    [Parse] leave in the variables (zero included), once they return
    [main] runs to its end: the defaults and the helper's HARQ setting
    carry the flags of the first [Parse] as they are, and the containers
    are created with the counts of the second [Parse] as they are. *)
Theorem no_validation `{fw : Ns3} (argv : list string)
    (v1 : Vars) (d1 : Defaults) (v2 : Vars) (d2 : Defaults) :
  first_parse initial_vars argv = ParseOk v1 d1 ->
  second_parse argv v1 d1 = ParseOk v2 d2 ->
  exists r s,
    main argv = Ret r s /\
    vars s = v2 /\
    In (Config_SetDefault "ns3::MmWaveHelper::RlcAmEnabled"
                          (BooleanValue (rlcAmEnabled v1))) (log s) /\
    In (Config_SetDefault "ns3::MmWaveHelper::HarqEnabled"
                          (BooleanValue (harqEnabled v1))) (log s) /\
    In (MmWaveHelper_SetHarqEnabled (harqEnabled v1)) (log s) /\
    In (NodeContainer_Create L_enbNodes (numEnb v2)) (log s) /\
    In (NodeContainer_Create L_ueNodes (numUe v2)) (log s) /\
    length (enbNodes r) = Z.to_nat (numEnb v2) /\
    length (ueNodes r) = Z.to_nat (numUe v2).
Proof.
  intros H1 H2.
  by_main_cases argv; rewrite H1 in E1; inversion E1; subst;
    rewrite H2 in E2; inversion E2; subst.
  do 2 eexists. split; [reflexivity|].
  cbn [vars log final_locals enbNodes ueNodes].
  rewrite !length_seq.
  rewrite <- (enb_count_in_range _ Hr), <- (ue_count_in_range _ Hr).
  unfold log_topology, enb_count, ue_count.
  destruct Hr as [He Hu].
  rewrite (to_uint32_in_range _ He), (to_uint32_in_range _ Hu).
  repeat match goal with |- _ /\ _ => split end; try reflexivity;
    cbn [In app log_parse log_configure]; tauto.
Qed.

Lemma no_validation_witness :
  exists r s,
    @main plain_ns3 ["droneConfig"; "--numEnb=0"; "--numUe=0"] = Ret r s /\
    vars s = set_numUe 0 (set_numEnb 0 initial_vars) /\
    In (Config_SetDefault "ns3::MmWaveHelper::RlcAmEnabled"
                          (BooleanValue false)) (log s) /\
    In (Config_SetDefault "ns3::MmWaveHelper::HarqEnabled"
                          (BooleanValue true)) (log s) /\
    In (MmWaveHelper_SetHarqEnabled true) (log s) /\
    In (NodeContainer_Create L_enbNodes 0) (log s) /\
    In (NodeContainer_Create L_ueNodes 0) (log s) /\
    length (enbNodes r) = 0%nat /\
    length (ueNodes r) = 0%nat.
Proof.
  exact (@no_validation plain_ns3
           ["droneConfig"; "--numEnb=0"; "--numUe=0"]
           (set_numUe 0 (set_numEnb 0 initial_vars)) ∅
           (set_numUe 0 (set_numEnb 0 initial_vars))
           (configured_defaults initial_vars ∅)
           eq_refl eq_refl).
Defined.

(** ** Parameters without effect *)

Lemma configuration_agree `{fw : Ns3} (v0 v0' : Vars)
    (argv argv' : list string) :
  agree_on_used v0 v0' = true ->
  differ_only_in_timing argv argv' = true ->
  configuration (script_outcome v0 argv)
    = configuration (script_outcome v0' argv').
Proof.
  intros Hv Ha. unfold script_outcome, first_parse.
  pose proof (parse_argv_agree argv argv' v0 v0' ∅ Ha Hv) as H1.
  destruct (parse_argv registered argv v0 ∅) as [v1 d1|c d],
           (parse_argv registered argv' v0' ∅) as [v1' d1'|c' d'];
    simpl in H1; try contradiction.
  - destruct H1 as [Hv1 <-].
    assert (Hc : configured_defaults v1 d1 = configured_defaults v1' d1).
    { apply agree_on_used_spec in Hv1. destruct Hv1 as (_ & _ & Hh & Hr).
      unfold configured_defaults. now rewrite Hh, Hr. }
    unfold second_parse. rewrite <- Hc.
    pose proof (parse_argv_agree argv argv' v1 v1'
                  (ConfigStore_load (configured_defaults v1 d1)) Ha Hv1) as H2.
    destruct (parse_argv registered argv v1 _) as [v2 d2|c d],
             (parse_argv registered argv' v1' _) as [v2' d2'|c' d'];
      simpl in H2; try contradiction.
    + destruct H2 as [Hv2 <-].
      apply agree_on_used_spec in Hv1. destruct Hv1 as (_ & _ & Hh & Hr).
      apply agree_on_used_spec in Hv2. destruct Hv2 as (He & Hu & _ & _).
      unfold configuration, final_locals, final_world, final_helper,
        enb_count, ue_count, log_topology, log_configure.
      cbn [world log]. rewrite <- Hc, Hh, He, Hu, Hr. reflexivity.
    + destruct H2 as [<- <-].
      apply agree_on_used_spec in Hv1. destruct Hv1 as (_ & _ & Hh & Hr).
      unfold configuration, log_configure. rewrite Hh, Hr. reflexivity.
  - destruct H1 as [<- <-]. reflexivity.
Qed.

(** C9: two executions whose command lines differ only in the values
    given to simTime and interPacketInterval (values the framework accepts
    as doubles) end in the same configuration: same way out, same objects,
    same world, same calls.  The same holds when the variables simTime,
    interPacketInterval, minDistance and maxDistance start from other
    values than those of lines 20-23: the script reads none of them. *)
Theorem unused_parameters `{fw : Ns3} (v0 v0' : Vars)
    (argv argv' : list string) :
  agree_on_used v0 v0' = true ->
  differ_only_in_timing argv argv' = true ->
  configuration (main argv) = configuration (main argv') /\
  configuration (main_with v0 argv start)
    = configuration (main_with v0' argv' start).
Proof.
  intros Hv Ha. rewrite !main_run, !main_with_run.
  split; apply configuration_agree; auto.
Qed.

Lemma unused_parameters_witness :
  configuration
    (@main plain_ns3 ["droneConfig"; "--simTime=3"; "--numEnb=2";
                      "--interPacketInterval=50"])
  = configuration
      (@main plain_ns3 ["droneConfig"; "--simTime=10"; "--numEnb=2";
                        "--interPacketInterval=1000"]) /\
  configuration
    (@main_with plain_ns3 initial_vars
       ["droneConfig"; "--simTime=3"; "--numEnb=2";
        "--interPacketInterval=50"] start)
  = configuration
      (@main_with plain_ns3
         (mkVars 1 1 5.0%float 20%float 1.0%float 2.0%float true false)
         ["droneConfig"; "--simTime=10"; "--numEnb=2";
          "--interPacketInterval=1000"] start).
Proof.
  exact (@unused_parameters plain_ns3 initial_vars
           (mkVars 1 1 5.0%float 20%float 1.0%float 2.0%float true false)
           ["droneConfig"; "--simTime=3"; "--numEnb=2";
            "--interPacketInterval=50"]
           ["droneConfig"; "--simTime=10"; "--numEnb=2";
            "--interPacketInterval=1000"]
           eq_refl eq_refl).
Defined.

(** ** The link's attributes and the recorded address *)

(** C10: whatever the command line, the link between the PGW and the
    remote host is installed with data rate 100Gb/s, MTU 1500 and channel
    delay 0.010 seconds, the only attributes the script sets on it; and the
    address recorded as [remoteHostAddr] is the one at index 1 of the
    interface container, the interface of the remote host, index 0 being
    the interface of the PGW. *)
Theorem link_attributes `{fw : Ns3} (argv : list string) :
  on_completion argv (main argv) (fun r s =>
    List.filter is_link_attribute (log s)
      = [ PointToPointHelper_SetDeviceAttribute
            "DataRate" (DataRateValue (DataRate_of "100Gb/s"));
          PointToPointHelper_SetDeviceAttribute "Mtu" (UintegerValue 1500);
          PointToPointHelper_SetChannelAttribute
            "Delay" (TimeValue (Seconds 0.010%float)) ] /\
    (exists l, links (world s) = [l] /\
       link_a l = pgw r /\ link_b l = remoteHost r /\
       link_device_attrs l !! "DataRate"
         = Some (DataRateValue (DataRate_of "100Gb/s")) /\
       link_device_attrs l !! "Mtu" = Some (UintegerValue 1500) /\
       link_channel_attrs l !! "Delay"
         = Some (TimeValue (Seconds 0.010%float)) /\
       dom (link_device_attrs l) = {[ "DataRate"; "Mtu" ]} /\
       dom (link_channel_attrs l) = {[ "Delay" ]}) /\
    (exists i0 i1, internetIpIfaces r = [i0; i1] /\
       if_node i0 = pgw r /\
       if_node i1 = remoteHost r /\
       remoteHostAddr r = if_address i1)).
Proof.
  by_main_cases argv; try reflexivity.
  cbn [on_completion].
  split; [reflexivity|]. split.
  - exists the_link. split; [reflexivity|].
    unfold the_link, final_p2ph.
    cbn [link_a link_b link_device_attrs link_channel_attrs
         m_deviceFactory m_channelFactory final_locals pgw remoteHost].
    repeat match goal with |- _ /\ _ => split end; reflexivity.
  - do 2 eexists. repeat split.
Qed.

(** * Further properties of [main] *)

(** ** Variables no option is bound to *)

Section Distances.
Context {fw : Ns3}.

Lemma Item_Parse_distances (i : Item) (value : string) (v v' : Vars) :
  Item_Parse i value v = Some v' ->
  minDistance v' = minDistance v /\ maxDistance v' = maxDistance v.
Proof.
  unfold Item_Parse. intros H.
  destruct (m_valuePtr i);
    [ destruct (parse_uint16 value) | destruct (parse_uint16 value)
    | destruct (parse_double value) | destruct (parse_double value)
    | destruct (parse_bool value _) | destruct (parse_bool value _) ];
    inversion H; subst; split; reflexivity.
Qed.

Lemma parse_params_distances opts args : forall v d v' d',
  parse_params opts args v d = ParseOk v' d' ->
  minDistance v' = minDistance v /\ maxDistance v' = maxDistance v.
Proof.
  induction args as [|param rest IH]; simpl; intros v d v' d' H.
  - inversion H; subst; auto.
  - destruct (HandleOption param) as [[name value]|]; [|eauto].
    unfold HandleArgument in H.
    destruct (builtin_option name); [discriminate|].
    destruct (find_item opts name) as [i|].
    + destruct (Item_Parse i value v) as [w|] eqn:E; [|discriminate].
      apply Item_Parse_distances in E. destruct E as [E1 E2].
      apply IH in H. destruct H as [H1 H2]. split; congruence.
    + destruct (SetAttributeFailSafe name value d); [|discriminate]. eauto.
Qed.

Lemma parse_argv_distances opts argv v d v' d' :
  parse_argv opts argv v d = ParseOk v' d' ->
  minDistance v' = minDistance v /\ maxDistance v' = maxDistance v.
Proof.
  destruct argv as [|prog args]; simpl; intros H.
  - inversion H; subst; auto.
  - eapply parse_params_distances; eauto.
Qed.

End Distances.

(** X1: no command line can change [minDistance] or [maxDistance]: no
    option is bound to them, so at the end of [main] they still hold 10.0
    and 150.0, whatever the arguments and whatever the framework's
    conversions. *)
Theorem distances_not_configurable `{fw : Ns3} (argv : list string) :
  on_completion argv (main argv) (fun _ s =>
    minDistance (vars s) = 10.0%float /\ maxDistance (vars s) = 150.0%float).
Proof.
  by_main_cases argv; try reflexivity.
  cbn [on_completion vars].
  unfold first_parse in E1. unfold second_parse in E2.
  apply parse_argv_distances in E1. apply parse_argv_distances in E2.
  destruct E1 as [A1 B1], E2 as [A2 B2].
  rewrite A2, A1, B2, B1. split; reflexivity.
Qed.

(** ** Bounds from the 16-bit counters *)

(** X2: [numEnb] and [numUe] are 16-bit variables, so neither container
    ever holds more than 65535 nodes, whatever number the command line
    asks for. *)
Theorem container_bounds `{fw : Ns3} (argv : list string) :
  on_completion argv (main argv) (fun r _ =>
    (Z.of_nat (length (enbNodes r)) <= 65535)%Z /\
    (Z.of_nat (length (ueNodes r)) <= 65535)%Z).
Proof.
  by_main_cases argv; try reflexivity.
  cbn [on_completion final_locals enbNodes ueNodes].
  rewrite !length_seq.
  rewrite (enb_count_in_range v2 Hr), (ue_count_in_range v2 Hr).
  destruct Hr as [He Hu]. split; lia.
Qed.

(** ** Nodes *)

(** X3: beyond the nodes of the EPC core the script creates exactly
    1 + numEnb + numUe nodes.  The remote host is created first, then the
    eNBs, then the UEs: every eNB and UE node is a later node than the
    remote host, and every eNB node an earlier one than every UE node. *)
Theorem node_accounting `{fw : Ns3} (argv : list string) :
  on_completion argv (main argv) (fun r s =>
    node_count (world s)
      = (epc_node_count + 1 + length (enbNodes r) + length (ueNodes r))%nat /\
    remoteHost r = epc_node_count /\
    Forall (fun n => (remoteHost r < n < node_count (world s))%nat)
           (enbNodes r ++ ueNodes r) /\
    Forall (fun e => Forall (fun u => (e < u)%nat) (ueNodes r)) (enbNodes r)).
Proof.
  by_main_cases argv; try reflexivity.
  cbn [on_completion final_locals final_world enbNodes ueNodes remoteHost
       world node_count].
  rewrite !length_seq. unfold remote_host_node.
  split; [reflexivity|]. split; [reflexivity|]. split.
  - rewrite <- seq_app. apply Forall_forall. intros n Hn.
    apply list_elem_of_In, in_seq in Hn. lia.
  - apply Forall_forall. intros e He. apply Forall_forall. intros u Hu.
    apply list_elem_of_In, in_seq in He. apply list_elem_of_In, in_seq in Hu.
    lia.
Qed.

Lemma node_is_bare_final `{fw : Ns3} (v2 : Vars) (d2 : Defaults) (n : nat) :
  (epc_pgw_offset < epc_node_count)%nat ->
  (epc_node_count < n)%nat ->
  node_is_bare (final_world v2 d2) n = true.
Proof.
  intros Hp Hn. unfold node_is_bare, final_world, the_link, link_interfaces,
    pgw_node, remote_host_node.
  cbn [internet_nodes links interfaces static_routes existsb forallb
       link_a link_b if_node].
  rewrite lookup_insert_ne by lia. rewrite lookup_empty.
  assert (E1 : Nat.eqb n epc_node_count = false) by (apply Nat.eqb_neq; lia).
  assert (E2 : Nat.eqb epc_node_count n = false) by (apply Nat.eqb_neq; lia).
  assert (E3 : Nat.eqb epc_pgw_offset n = false) by (apply Nat.eqb_neq; lia).
  rewrite E1, E2, E3. reflexivity.
Qed.

(** X4: the eNB and UE nodes are created and nothing more.  Provided the
    PGW is one of the nodes of the EPC core, no eNB or UE node has an
    Internet stack, is an end of a link, has an IPv4 interface or has a
    static route when [main] ends. *)
Theorem access_nodes_left_bare `{fw : Ns3} (argv : list string) :
  (epc_pgw_offset < epc_node_count)%nat ->
  on_completion argv (main argv) (fun r s =>
    forallb (node_is_bare (world s)) (enbNodes r ++ ueNodes r) = true).
Proof.
  intros Hp. by_main_cases argv; try reflexivity.
  cbn [on_completion final_locals enbNodes ueNodes world].
  apply forallb_forall. intros n Hn. rewrite <- seq_app in Hn.
  apply in_seq in Hn. apply node_is_bare_final; [exact Hp | lia].
Qed.

Lemma access_nodes_left_bare_witness :
  (@epc_pgw_offset plain_ns3 < @epc_node_count plain_ns3)%nat /\
  on_completion ["droneConfig"; "--numEnb=2"; "--numUe=3"]
    (@main plain_ns3 ["droneConfig"; "--numEnb=2"; "--numUe=3"])
    (fun r s =>
       forallb (node_is_bare (world s)) (enbNodes r ++ ueNodes r) = true).
Proof.
  assert (H : (@epc_pgw_offset plain_ns3 < @epc_node_count plain_ns3)%nat)
    by (simpl; lia).
  split; [exact H|].
  exact (@access_nodes_left_bare plain_ns3
           ["droneConfig"; "--numEnb=2"; "--numUe=3"] H).
Defined.

(** ** When the framework ends the process *)

(** X5: when the process ends inside [Parse], nothing of the topology has
    been built: no remote host, Internet stack, link, interface, route or
    eNB/UE container exists.  If it ends in the first [Parse], no default
    has been set and no node exists; if it ends in the second, the five
    defaults are set and the only nodes are those of the EPC core. *)
Theorem exit_leaves_nothing_built `{fw : Ns3} (argv : list string)
    (code : Z) (w : World) (l : list Call) :
  main argv = Exit code w l ->
  internet_nodes w = [] /\ links w = [] /\ interfaces w = [] /\
  static_routes w = ∅ /\
  existsb is_container_creation l = false /\
  ((node_count w = 0%nat /\
    existsb is_default_setting l = false /\
    List.filter is_parse_call l = [CommandLine_Parse argv])
   \/
   (node_count w = epc_node_count /\
    length (List.filter is_default_setting l) = 5%nat /\
    List.filter is_parse_call l
      = [CommandLine_Parse argv; CommandLine_Parse argv])).
Proof.
  intros H. revert H. by_main_cases argv; intros H; inversion H; subst.
  - repeat match goal with |- _ /\ _ => split end; try reflexivity.
    left. repeat split.
  - repeat match goal with |- _ /\ _ => split end; try reflexivity.
    right. repeat split.
Qed.

Lemma exit_leaves_nothing_built_witness :
  @main plain_ns3 ["droneConfig"; "--numEnb=4"; "--help"]
    = Exit 0 empty_world (log_parse ["droneConfig"; "--numEnb=4"; "--help"]) /\
  existsb is_container_creation
          (log_parse ["droneConfig"; "--numEnb=4"; "--help"]) = false.
Proof.
  assert (H : @main plain_ns3 ["droneConfig"; "--numEnb=4"; "--help"]
              = Exit 0 empty_world
                     (log_parse ["droneConfig"; "--numEnb=4"; "--help"]))
    by (vm_compute; reflexivity).
  split; [exact H|].
  exact (proj1 (proj2 (proj2 (proj2 (proj2
    (@exit_leaves_nothing_built plain_ns3
       ["droneConfig"; "--numEnb=4"; "--help"] 0 empty_world
       (log_parse ["droneConfig"; "--numEnb=4"; "--help"]) H)))))).
Defined.

(** ** The two calls of [Parse] *)

(** X6: [Parse] is called exactly twice, both times with the whole
    [argv], and against the same options: all six are registered before
    the first call and none is registered after it. *)
Theorem parse_twice_same_options `{fw : Ns3} (argv : list string) :
  on_completion argv (main argv) (fun _ s =>
    List.filter is_parse_call (log s)
      = [CommandLine_Parse argv; CommandLine_Parse argv] /\
    exists before after,
      log s = (before ++ CommandLine_Parse argv :: after)%list /\
      existsb is_parse_call before = false /\
      surface before = six_parameters /\
      surface after = []).
Proof.
  by_main_cases argv; try reflexivity.
  cbn [on_completion log]. split; [reflexivity|].
  exists (removelast (log_parse argv)). eexists.
  split; [reflexivity|]. repeat split.
Qed.

(** ** The helper objects *)

(** X7: the three settings made on the MmWaveHelper all hold at the end:
    its scheduler type is MmWaveFlexTtiMacScheduler, the EPC helper
    attached to it is the one the script holds, and the PGW end of the
    link is the PGW of that EPC helper. *)
Theorem helper_wiring `{fw : Ns3} (argv : list string) :
  on_completion argv (main argv) (fun r s =>
    m_schedulerType (mmwaveHelper r) = "ns3::MmWaveFlexTtiMacScheduler" /\
    m_epcHelper (mmwaveHelper r) = Some (epcHelper r) /\
    map link_a (links (world s)) = [m_pgw (epcHelper r)]).
Proof.
  by_main_cases argv; try reflexivity.
  cbn [on_completion]. repeat split.
Qed.

(** ** Addresses on the link *)

(** X8: whatever the command line, the PGW end of the link gets address
    1.0.0.1 and the remote host 1.0.0.2, which is the address recorded in
    [remoteHostAddr]; the next address the helper would hand out is
    1.0.0.3.  Neither address lies in the routed network 7.0.0.0/8. *)
Theorem link_addresses `{fw : Ns3} (argv : list string) :
  on_completion argv (main argv) (fun r s =>
    map if_address (internetIpIfaces r)
      = [Ipv4Address "1.0.0.1"; Ipv4Address "1.0.0.2"] /\
    remoteHostAddr r = Ipv4Address "1.0.0.2" /\
    Z.lor (m_network (ipv4h r)) (m_address (ipv4h r)) = Ipv4Address "1.0.0.3" /\
    interfaces (world s) = internetIpIfaces r /\
    forallb (fun i => negb (Z.land (if_address i) (Ipv4Mask "255.0.0.0")
                            =? Ipv4Address "7.0.0.0")%Z)
            (interfaces (world s)) = true).
Proof.
  by_main_cases argv; try reflexivity.
  cbn [on_completion]. repeat split.
Qed.

(** ** Command lines without options *)

(** X9: when no argument is an option, the script itself never stops the
    run: [main] returns, the variables hold the values of lines 18-25, and
    the defaults registry is what the configuration store leaves of the
    five defaults the script set from them. *)
Theorem completes_without_options `{fw : Ns3} (argv : list string) :
  forallb (fun param => negb (is_Some_dec (HandleOption param))) (tail argv)
    = true ->
  exists r s,
    main argv = Ret r s /\
    vars s = initial_vars /\
    defaults (world s)
      = ConfigStore_load (configured_defaults initial_vars ∅) /\
    length (enbNodes r) = 1%nat /\ length (ueNodes r) = 1%nat.
Proof.
  intros H. rewrite main_run.
  unfold script_outcome, first_parse, second_parse.
  destruct argv as [|prog args].
  - do 2 eexists. repeat split.
  - cbn [tail] in H. cbn [parse_argv].
    rewrite (parse_params_positional _ _ _ _ H).
    rewrite (parse_params_positional _ _ _ _ H).
    do 2 eexists. repeat split.
Qed.

Lemma completes_without_options_witness :
  exists r s,
    @main plain_ns3 ["droneConfig"; "numEnb=3"; "trace.txt"] = Ret r s /\
    vars s = initial_vars /\
    defaults (world s)
      = @ConfigStore_load plain_ns3 (configured_defaults initial_vars ∅) /\
    length (enbNodes r) = 1%nat /\ length (ueNodes r) = 1%nat.
Proof.
  exact (@completes_without_options plain_ns3
           ["droneConfig"; "numEnb=3"; "trace.txt"] eq_refl).
Defined.
